(** * BeaverTracker: the PDF footer stamper and the upload route

    A shallow embedding of [addUidAndTokenToPdf] (the footer stamper) and of
    the identifier generators and the upload handler of [server/routes.ts].

    JavaScript values are modelled as follows:
    - a [string] is the UTF-8 byte sequence of the JavaScript string;
    - a [number] that holds a count or an index is a [nat], rendered in
      decimal by a template literal; a [number] that holds a length on the
      page is a binary64 [float], with IEEE arithmetic;
    - an exception is a [Throw] completion, [await] on a rejected promise
      being a [Throw] at the point of the [await];
    - the clock and the console are fields of an explicit [World]. *)

From Stdlib Require Import Floats Ascii String NArith.
From stdpp Require Import base option list strings pretty.

Set Default Proof Using "Type".
Set Warnings "-inexact-float,-register-all".

(** ** JavaScript runtime *)

Module Js.

(** An [Error] object, as far as the code looks at it: its message. *)
Record JsError := Error { message : string }.

(** The outcome of evaluating an expression or a block. *)
Inductive completion (A : Type) : Type :=
| Normal (a : A)
| Throw (e : JsError).
Arguments Normal {A} a.
Arguments Throw {A} e.

#[global] Instance completion_ret : MRet completion := λ A a, Normal a.
#[global] Instance completion_bind : MBind completion := λ A B k c,
  match c with
  | Normal a => k a
  | Throw e => Throw e
  end.

(** A [Date]: the fields that [toISOString] (UTC) and [toTimeString]
    (local time) print. *)
Record Date := mkDate {
  utcFullYear : N;
  utcMonth : N;      (* 1..12, as printed *)
  utcDate : N;
  utcHours : N;
  utcMinutes : N;
  utcSeconds : N;
  utcMilliseconds : N;
  localHours : N;
  localMinutes : N;
  localSeconds : N;
  zoneSuffix : string  (* what follows the time in toTimeString, e.g. GMT+0100 (CET) *)
}.

(** One line written by [console.error]: the label and the error logged. *)
Record ConsoleLine := consoleLine { label : string; logged : JsError }.

(** The part of the outside world the code reads or writes: how many times
    the clock and the random source have been read, and the console. *)
Record World := mkWorld {
  clockReads : nat;
  randomReads : nat;
  console : list ConsoleLine
}.

(** Truthiness of an optional string ([undefined] and the empty string are
    falsy, every other string is truthy). *)
Definition truthy (s : option string) : bool :=
  match s with
  | None => false
  | Some EmptyString => false
  | Some (String _ _) => true
  end.

(** State and exception monad of an [async] function body, over the state
    [St] the body can reach. *)
Definition M (St A : Type) : Type := St → completion A * St.

#[global] Instance M_ret {St} : MRet (M St) := λ A a w, (Normal a, w).
#[global] Instance M_bind {St} : MBind (M St) := λ A B k m w,
  match m w with
  | (Normal a, w') => k a w'
  | (Throw e, w') => (Throw e, w')
  end.

Definition lift {St A} (c : completion A) : M St A := λ w, (c, w).
Definition throw {St A} (e : JsError) : M St A := λ w, (Throw e, w).

(** [try { body } catch (error) { handler }] *)
Definition try_catch {St A} (body : M St A) (handler : JsError → M St A)
  : M St A := λ w,
  match body w with
  | (Normal a, w') => (Normal a, w')
  | (Throw e, w') => handler e w'
  end.

Definition console_error (lbl : string) (e : JsError) : M World unit := λ w,
  (Normal (), mkWorld (clockReads w) (randomReads w) (console w ++ [consoleLine lbl e])).

Section Runtime.
(** [wallClock k] is the instant the [k]-th read of the clock returns,
    [randomSource k] the UUID the [k]-th call of [randomUUID] returns. *)
Variable wallClock : nat → Date.
Variable randomSource : nat → string.

(** [new Date()] *)
Definition newDate : M World Date := λ w,
  (Normal (wallClock (clockReads w)),
   mkWorld (S (clockReads w)) (randomReads w) (console w)).

(** [randomUUID()] *)
Definition randomUUID : M World string := λ w,
  (Normal (randomSource (randomReads w)),
   mkWorld (clockReads w) (S (randomReads w)) (console w)).
End Runtime.

(** *** String methods *)

(** [s.split(c)] for a one-character separator. *)
Fixpoint split (c : ascii) (s : string) : list string :=
  match s with
  | EmptyString => [EmptyString]
  | String a rest =>
    if Ascii.eqb a c then EmptyString :: split c rest
    else match split c rest with
         | [] => [String a EmptyString]
         | piece :: pieces => String a piece :: pieces
         end
  end.

(** [a[0].m(...)]: reading a method of [undefined] throws a TypeError. *)
Definition first (a : list string) : completion string :=
  match a with
  | [] => Throw (Error "Cannot read properties of undefined")
  | s :: _ => Normal s
  end.

(** [s.replace(/c/g, '')] for a one-character pattern. *)
Fixpoint removeAll (c : ascii) (s : string) : string :=
  match s with
  | EmptyString => EmptyString
  | String a rest =>
    if Ascii.eqb a c then removeAll c rest else String a (removeAll c rest)
  end.

(** [s.substring(0, n)] *)
Definition substring0 (n : nat) (s : string) : string := String.substring 0 n s.

(** Decimal rendering of [n] on at least [w] digits, as the date methods
    print their fields. *)
Definition padStart (w : nat) (n : N) : string :=
  let digits := pretty n in
  string_of_list_ascii (replicate (w - String.length digits) "0"%char) +:+ digits.

(** Character classes, and strings made of one class. *)
Definition isDigit (c : ascii) : bool :=
  (48 <=? nat_of_ascii c) && (nat_of_ascii c <=? 57).

(** The hexadecimal digits [randomUUID] prints (lower case). *)
Definition isHexDigit (c : ascii) : bool :=
  isDigit c || ((97 <=? nat_of_ascii c) && (nat_of_ascii c <=? 102)).

Fixpoint allChars (P : ascii → bool) (s : string) : bool :=
  match s with
  | EmptyString => true
  | String a rest => P a && allChars P rest
  end.

(** [s] is made of [w] decimal digits. *)
Definition digitsOfWidth (w : nat) (s : string) : bool :=
  (String.length s =? w) && allChars isDigit s.

(** The fields of a [Date] are in their calendar ranges, the year on four
    digits. *)
Definition validDate (d : Date) : Prop :=
  (utcFullYear d ≤ 9999 ∧ 1 ≤ utcMonth d ≤ 12 ∧ 1 ≤ utcDate d ≤ 31 ∧
   utcHours d < 24 ∧ utcMinutes d < 60 ∧ utcSeconds d < 60 ∧
   utcMilliseconds d < 1000 ∧
   localHours d < 24 ∧ localMinutes d < 60 ∧ localSeconds d < 60)%N.

(** [d.toISOString()]: [YYYY-MM-DDTHH:mm:ss.sssZ] in UTC; a year above 9999
    is printed with a sign and six digits. *)
Definition toISOString (d : Date) : string :=
  (if decide (utcFullYear d ≤ 9999)%N then padStart 4 (utcFullYear d)
   else "+" +:+ padStart 6 (utcFullYear d))
  +:+ "-" +:+ padStart 2 (utcMonth d) +:+ "-" +:+ padStart 2 (utcDate d)
  +:+ "T" +:+ padStart 2 (utcHours d) +:+ ":" +:+ padStart 2 (utcMinutes d)
  +:+ ":" +:+ padStart 2 (utcSeconds d) +:+ "." +:+ padStart 3 (utcMilliseconds d)
  +:+ "Z".

(** [d.toTimeString()]: [HH:mm:ss] in local time, a space, and the zone. *)
Definition toTimeString (d : Date) : string :=
  padStart 2 (localHours d) +:+ ":" +:+ padStart 2 (localMinutes d)
  +:+ ":" +:+ padStart 2 (localSeconds d) +:+ " " +:+ zoneSuffix d.

End Js.

(** ** The footer stamper ([addUidAndTokenToPdf]) *)

Module Stamper.
Import Js.

Definition Buffer : Type := list Byte.byte.

(** *** The object model of pdf-lib, as far as the stamper uses it *)

Inductive StandardFonts := Helvetica | TimesRoman | Courier.

Record Color := rgb { red : float; green : float; blue : float }.

(** An embedded font: its two methods may throw (a character the font
    cannot encode). *)
Record PDFFont := mkFont {
  fontName : StandardFonts;
  widthOfTextAtSize : string → float → completion float;
  encodeText : string → completion string
}.

(** The options object passed to [page.drawText]. *)
Record DrawTextOptions := mkOptions {
  x : float;
  y : float;
  size : float;
  font : PDFFont;
  color : Color;
  opacity : float
}.

(** What a page shows: content that was in the file, and text drawn on it. *)
Inductive PageItem :=
| Existing (stream : list Byte.byte)
| DrawnText (text : string) (options : DrawTextOptions).

Record PDFPage := mkPage {
  width : float;
  height : float;
  contents : list PageItem
}.

Record PDFDocument := mkDocument {
  pages : list PDFPage;
  fonts : list PDFFont
}.

(** [page.drawText(text, options)]: encodes the text with the font, then
    appends the text operators to the page's content. *)
Definition drawText (page : PDFPage) (text : string) (options : DrawTextOptions)
  : completion PDFPage :=
  _ ← encodeText (font options) text;
  mret (mkPage (width page) (height page) (contents page ++ [DrawnText text options])).

Section WithLibrary.

(** The library's parser, font table and serializer, and the runtime's
    clock and date formatting. *)
Variable load : Buffer → completion PDFDocument.
Variable standardFont : StandardFonts → completion PDFFont.
Variable save : PDFDocument → completion Buffer.
Variable wallClock : nat → Date.
Variable toLocaleString : Date → string → string.

(** [pdfDoc.embedFont(name)]: the font is registered in the document. *)
Definition embedFont (pdfDoc : PDFDocument) (name : StandardFonts)
  : completion (PDFFont * PDFDocument) :=
  f ← standardFont name;
  mret (f, mkDocument (pages pdfDoc) (fonts pdfDoc ++ [f])).

Section Body.
Variables (uid token : string) (signatureInfo : option string).
Variables (font : PDFFont) (fontSize : float) (timestamp : string).

(** The text of lines 41-46, for the loop index [i] and [pages.length]. *)
Definition footerText (i length : nat) : string :=
  let text := "BeaverDoc - UID: " +:+ uid +:+ " | Token: " +:+ token
              +:+ " | Page " +:+ pretty (i + 1) +:+ "/" +:+ pretty length in
  if truthy signatureInfo
  then text +:+ " | " +:+ default "" signatureInfo
            +:+ " | Horodaté le " +:+ timestamp
  else text.

(** One iteration of the loop body (lines 37-63) on [page = pages[i]]. *)
Definition stampPage (i length : nat) (page : PDFPage) : completion PDFPage :=
  let text := footerText i length in
  textWidth ← widthOfTextAtSize font text fontSize;
  let x := ((width page - textWidth) / 2)%float in
  let y := 10%float in
  drawText page text
    (mkOptions x y fontSize font (rgb 0.7 0.7 0.7) 0.5).

(** [for (let i = ...; i < pages.length; i++)]: the pages are objects
    mutated in place, here the array is updated at index [i]. The loop
    runs at most [fuel] iterations. *)
Fixpoint stampLoop (fuel i : nat) (pages : list PDFPage)
  : completion (list PDFPage) :=
  match fuel with
  | 0 => Normal pages
  | S fuel' =>
    match pages !! i with
    | None => Normal pages
    | Some page =>
      page' ← stampPage i (length pages) page;
      stampLoop fuel' (S i) (<[i := page']> pages)
    end
  end.
End Body.

Definition genericMessage : string :=
  "Impossible de modifier le PDF pour ajouter l'UID et le token".

(** Lines 23-64: everything between parsing and serializing. *)
Definition stampDocument (pdfDoc : PDFDocument) (uid token : string)
    (signatureInfo : option string) : M World PDFDocument :=
  '(font, pdfDoc) ← lift (embedFont pdfDoc Helvetica);
  let fontSize := 6%float in
  let pages := pages pdfDoc in
  now ← newDate wallClock;
  let timestamp := toLocaleString now "fr-FR" in
  pages ← lift (stampLoop uid token signatureInfo font fontSize timestamp
                  (length pages) 0 pages);
  mret (mkDocument pages (fonts pdfDoc)).

Definition addUidAndTokenToPdf (pdfBuffer : Buffer) (uid token : string)
    (signatureInfo : option string) : M World Buffer :=
  try_catch
    (pdfDoc ← lift (load pdfBuffer);
     pdfDoc ← stampDocument pdfDoc uid token signatureInfo;
     modifiedPdfBytes ← lift (save pdfDoc);
     mret modifiedPdfBytes)
    (λ error,
       console_error "Erreur lors de la modification du PDF:" error;;
       throw (Error genericMessage)).

End WithLibrary.

(** *** Vocabulary for the properties of the stamper *)

(** [s] occurs in [t]. *)
Definition occursIn (s t : string) : Prop := ∃ pre post, t = pre +:+ s +:+ post.

(** The world after one read of the clock. *)
Definition afterClockRead (w : World) : World :=
  mkWorld (S (clockReads w)) (randomReads w) (console w).

(** The font measures and encodes [text] at [fontSize]. *)
Definition renders (font : PDFFont) (fontSize : float) (text : string) : Prop :=
  (∃ textWidth, widthOfTextAtSize font text fontSize = Normal textWidth) ∧
  (∃ encoded, encodeText font text = Normal encoded).

(** The timestamp of an invocation started in world [w]. *)
Definition timestampAt (wallClock : nat → Date)
    (toLocaleString : Date → string → string) (w : World) : string :=
  toLocaleString (wallClock (clockReads w)) "fr-FR".

(** [doc'] is [doc] with the font registered and, on every page, one text
    drawn after the page's contents: the footer of that page, centred with
    the measured width, 10 units above the bottom edge, at size 6. *)
Definition stampedWith (uid token : string) (signatureInfo : option string)
    (font : PDFFont) (timestamp : string) (doc doc' : PDFDocument) : Prop :=
  fonts doc' = fonts doc ++ [font] ∧
  length (pages doc') = length (pages doc) ∧
  ∀ i p, pages doc !! i = Some p →
    let text := footerText uid token signatureInfo timestamp i (length (pages doc)) in
    ∃ textWidth,
      widthOfTextAtSize font text 6 = Normal textWidth ∧
      pages doc' !! i =
        Some (mkPage (width p) (height p)
                (contents p ++
                 [DrawnText text
                    (mkOptions ((width p - textWidth) / 2)%float 10%float 6%float
                       font (rgb 0.7 0.7 0.7) 0.5)])).

End Stamper.

(** ** The identifier generators and the upload route ([server/routes.ts]) *)

Module Routes.
Import Js.

(** The file multer attaches to the request ([req.file]). *)
Record MulterFile := mkFile {
  originalname : string;
  buffer : list Byte.byte;
  mimetype : string;
  size : float
}.

(** The request, as far as the upload handler reads it: [req.file] and
    [req.body.options]. *)
Record Request := mkRequest {
  file : option MulterFile;
  options : option string
}.

(** A value [JSON.parse] can return, and [undefined]. *)
Inductive JsValue :=
| JUndefined
| JNull
| JBool (b : bool)
| JNumber (n : float)
| JString (s : string)
| JArray (items : list JsValue)
| JObject (fields : list (string * JsValue)).

(** The field [key] of an object's field list, [undefined] if it has none. *)
Fixpoint field (key : string) (fields : list (string * JsValue)) : JsValue :=
  match fields with
  | [] => JUndefined
  | (k, v) :: rest => if String.eqb k key then v else field key rest
  end.

(** [v.key]: a TypeError on [null] and [undefined], the field of an object,
    and [undefined] where the value has no such property. *)
Definition getProperty (v : JsValue) (key : string) : completion JsValue :=
  match v with
  | JUndefined | JNull =>
    Throw (Error ("Cannot read properties of null (reading '" +:+ key +:+ "')"))
  | JObject fields => Normal (field key fields)
  | _ => Normal JUndefined
  end.

(** The object literal of lines 73-82. *)
Record DocumentInput := mkDocumentInput {
  name : string;
  uid : string;
  token : string;
  content : string;
  contentType : string;
  sizeLabel : string;
  creatorId : nat;
  isSigned : JsValue
}.

(** The argument of [storage.createAuditLog]. *)
Record AuditLogInput := mkAuditLogInput {
  documentId : nat;
  userId : nat;
  action : string;
  details : string
}.

(** Splits [n] hexadecimal digits off the front of [s]. *)
Fixpoint hexRun (n : nat) (s : string) : option (string * string) :=
  match n with
  | 0 => Some (EmptyString, s)
  | S n' =>
    match s with
    | EmptyString => None
    | String c rest =>
      if isHexDigit c
      then match hexRun n' rest with
           | Some (h, tail) => Some (String c h, tail)
           | None => None
           end
      else None
    end
  end.

(** The shape of what [randomUUID] returns: groups of 8, 4, 4, 4 and 12
    hexadecimal digits separated by dashes. *)
Definition isUuid (s : string) : bool :=
  match hexRun 8 s with
  | Some (_, String "-" s1) =>
    match hexRun 4 s1 with
    | Some (_, String "-" s2) =>
      match hexRun 4 s2 with
      | Some (_, String "-" s3) =>
        match hexRun 4 s3 with
        | Some (_, String "-" s4) =>
          match hexRun 12 s4 with
          | Some (_, EmptyString) => true
          | _ => false
          end
        | _ => false
        end
      | _ => false
      end
    | _ => false
    end
  | _ => false
  end.

(** The date stamp [YYYYMMDD] (UTC) and the time stamp [HHMMSS] (local time)
    of an instant. *)
Definition dateStamp (d : Date) : string :=
  padStart 4 (utcFullYear d) +:+ padStart 2 (utcMonth d) +:+ padStart 2 (utcDate d).
Definition timeStamp (d : Date) : string :=
  padStart 2 (localHours d) +:+ padStart 2 (localMinutes d)
  +:+ padStart 2 (localSeconds d).

(** The world after one read of the clock and one of the random source. *)
Definition afterGenerator (w : World) : World :=
  mkWorld (S (clockReads w)) (S (randomReads w)) (console w).

Section Generators.
Variable wallClock : nat → Date.
Variable randomSource : nat → string.

Definition generateUID : M World string :=
  now ← newDate wallClock;
  isoDate ← lift (first (split "T" (toISOString now)));
  let date := removeAll "-" isoDate in
  localTime ← lift (first (split " " (toTimeString now)));
  let time := removeAll ":" localTime in
  let userId := "0042" in
  let companyId := "7890" in
  uuid ← randomUUID randomSource;
  let random := substring0 16 (removeAll "-" uuid) in
  mret ("UID-" +:+ date +:+ "-" +:+ time +:+ "-USR" +:+ userId
        +:+ "-CPY" +:+ companyId +:+ "-" +:+ random).

Definition generateToken : M World string :=
  now ← newDate wallClock;
  isoDate ← lift (first (split "T" (toISOString now)));
  let date := removeAll "-" isoDate in
  localTime ← lift (first (split " " (toTimeString now)));
  let time := removeAll ":" localTime in
  uuid ← randomUUID randomSource;
  let random := substring0 16 (removeAll "-" uuid) in
  mret ("DOC-" +:+ date +:+ "-" +:+ time +:+ "-" +:+ random).
End Generators.

(** What [res.status(code).json(body)] sends. *)
Inductive Body (Document : Type) :=
| MessageBody (message : string)
| DocumentBody (document : Document).
Arguments MessageBody {Document} message.
Arguments DocumentBody {Document} document.

Record Response (Document : Type) := mkResponse {
  status : nat;
  body : Body Document
}.
Arguments mkResponse {Document} status body.
Arguments status {Document} r.
Arguments body {Document} r.

Section Upload.
(** The runtime: clock, random source, [JSON.parse], [Number.toFixed] and
    base64 encoding of a buffer. *)
Variable wallClock : nat → Date.
Variable randomSource : nat → string.
Variable JSON_parse : string → completion JsValue.
Variable toFixed : float → nat → string.
Variable toBase64 : list Byte.byte → string.

(** The schema of [@shared/schema] and the storage of [./storage], which
    the handler calls: validated documents, stored documents with their
    [id], and the two storage operations on the store's state. *)
Variables InsertDocument Document AuditLog Storage : Type.
Variable insertDocumentSchema_parse : DocumentInput → completion InsertDocument.
Variable id : Document → nat.
Variable createDocument : InsertDocument → Storage → completion Document * Storage.
Variable createAuditLog : AuditLogInput → Storage → completion AuditLog * Storage.

(** The handler's state: the world and the store. *)
Definition ServerState : Type := World * Storage.

Definition inWorld {A} (m : M World A) : M ServerState A := λ st,
  let '(r, w) := m st.1 in (r, (w, st.2)).
Definition inStorage {A} (m : Storage → completion A * Storage)
  : M ServerState A := λ st,
  let '(r, s) := m st.2 in (r, (st.1, s)).

Definition defaultOptions : JsValue :=
  JObject [("generateNewUid", JBool true); ("addToken", JBool true);
           ("signAfterImport", JBool false)].

Definition uploadError : string := "Erreur lors de l'importation du document".

(** The handler of [POST /api/documents/upload], run after multer. *)
Definition uploadHandler (req : Request) : M ServerState (Response Document) :=
  try_catch
    (match file req with
     | None => mret (mkResponse 400 (MessageBody "Aucun fichier n'a été téléchargé"))
     | Some reqFile =>
       options ← (if truthy (options req)
                  then lift (JSON_parse (default "" (options req)))
                  else mret defaultOptions);
       uid ← inWorld (generateUID wallClock randomSource);
       token ← inWorld (generateToken wallClock randomSource);
       signAfterImport ← lift (getProperty options "signAfterImport");
       let document :=
         mkDocumentInput (originalname reqFile) uid token
           (toBase64 (buffer reqFile)) (mimetype reqFile)
           (toFixed (size reqFile / 1024 / 1024)%float 2 +:+ " MB")
           1 signAfterImport in
       validatedDoc ← lift (insertDocumentSchema_parse document);
       createdDoc ← inStorage (createDocument validatedDoc);
       _ ← inStorage (createAuditLog
             (mkAuditLogInput (id createdDoc) 1 "create"
                ("Document uploaded: " +:+ originalname reqFile)));
       mret (mkResponse 201 (DocumentBody createdDoc))
     end)
    (λ error,
       inWorld (console_error "Upload error:" error);;
       mret (mkResponse 500 (MessageBody uploadError))).
End Upload.

End Routes.

(** ** Sample inputs *)

Module Sample.
Import Js Stamper Routes.

(** A font that measures half the font size per byte and encodes
    everything. *)
Definition sampleFont : PDFFont :=
  mkFont Helvetica
    (λ text size,
       Normal (PrimFloat.of_uint63 (Uint63.of_Z (Z.of_nat (String.length text)))
               * size / 2)%float)
    (λ text, Normal text).

Definition sampleStandardFont (name : StandardFonts) : completion PDFFont :=
  match name with
  | Helvetica => Normal sampleFont
  | _ => Throw (Error "font not available")
  end.

Definition a4 (stream : list Byte.byte) : PDFPage :=
  mkPage 595.28 841.89 [Existing stream].

(** A narrow page: 100 units wide. *)
Definition ticket (stream : list Byte.byte) : PDFPage :=
  mkPage 100 50 [Existing stream].

Definition onePage : PDFDocument := mkDocument [a4 [Byte.x01]] [].
Definition threePages : PDFDocument :=
  mkDocument [a4 [Byte.x01]; a4 [Byte.x02]; ticket [Byte.x03]] [].

Definition sampleDate : Date :=
  mkDate 2026 11 3 9 5 7 42 10 5 7 "GMT+0100 (heure normale d'Europe centrale)".
Definition sampleClock (k : nat) : Date := sampleDate.

Definition sampleLocale (d : Date) (locale : string) : string :=
  padStart 2 (utcDate d) +:+ "/" +:+ padStart 2 (utcMonth d) +:+ "/"
  +:+ padStart 4 (utcFullYear d) +:+ " " +:+ padStart 2 (localHours d) +:+ ":"
  +:+ padStart 2 (localMinutes d) +:+ ":" +:+ padStart 2 (localSeconds d).

Definition world0 : World := mkWorld 0 0 [].

Definition sampleUuid (k : nat) : string := "3f2a9c1e-7b4d-4e8a-9c0f-5d6e7f8a9b0c".

(** The one-page document after one stamping. *)
Definition onePageStamped : PDFDocument :=
  match stampDocument sampleStandardFont sampleClock sampleLocale
          onePage "UID-X" "DOC-Y" None world0 with
  | (Normal d, _) => d
  | (Throw _, _) => onePage
  end.

(** A toy file format: one byte names the document. *)
Definition sampleLoad (b : Buffer) : completion PDFDocument :=
  match b with
  | [Byte.x01] => Normal onePage
  | [Byte.x03] => Normal threePages
  | [Byte.x11] => Normal onePageStamped
  | _ => Throw (Error "Failed to parse PDF document")
  end.

Definition isDrawnText (item : PageItem) : bool :=
  match item with
  | DrawnText _ _ => true
  | Existing _ => false
  end.

Definition sampleSave (d : PDFDocument) : completion Buffer :=
  match pages d with
  | [p] => Normal [if existsb isDrawnText (contents p) then Byte.x11 else Byte.x01]
  | _ => Normal [Byte.x03]
  end.

(** A toy server: the schema wants a name, the store numbers the documents
    from 1 and keeps the audit entries. *)
Definition quote : string := String (ascii_of_nat 34) EmptyString.

Definition sampleJSON (text : string) : completion JsValue :=
  if String.eqb text "{}" then Normal (JObject [])
  else if String.eqb text ("{" +:+ quote +:+ "signAfterImport" +:+ quote +:+ ":true}")
       then Normal (JObject [("signAfterImport", JBool true)])
  else if String.eqb text "null" then Normal JNull
  else Throw (Error "Unexpected token in JSON").

Definition sampleToFixed (n : float) (digits : nat) : string := "0.00".
Definition sampleBase64 (b : list Byte.byte) : string := "AQ==".

Definition sampleStore : Type := list (nat * DocumentInput) * list AuditLogInput.

Definition sampleSchema (d : DocumentInput) : completion DocumentInput :=
  if String.eqb (name d) "" then Throw (Error "name is required") else Normal d.

Definition sampleCreateDocument (d : DocumentInput) (st : sampleStore)
  : completion (nat * DocumentInput) * sampleStore :=
  let created := (S (length st.1), d) in
  (Normal created, (st.1 ++ [created], st.2)).

Definition sampleCreateAuditLog (entry : AuditLogInput) (st : sampleStore)
  : completion AuditLogInput * sampleStore :=
  (Normal entry, (st.1, st.2 ++ [entry])).

Definition sampleUpload :=
  uploadHandler sampleClock sampleUuid sampleJSON sampleToFixed sampleBase64
    DocumentInput (nat * DocumentInput) AuditLogInput sampleStore
    sampleSchema fst sampleCreateDocument sampleCreateAuditLog.

Definition sampleFile : MulterFile :=
  mkFile "contrat.pdf" [Byte.x01] "application/pdf" 1.

End Sample.

(** ** The sign and share routes ([server/routes.ts]) *)

Module Handlers.
Import Js Routes.

(** [!(n === n)]: the number is NaN. *)
Definition isNaN (n : float) : bool := negb (PrimFloat.eqb n n).

(** Truthiness of a value: [undefined], [null], [false], [0], [-0], [NaN]
    and the empty string are falsy. *)
Definition truthyValue (v : JsValue) : bool :=
  match v with
  | JUndefined | JNull => false
  | JBool b => b
  | JNumber n => negb (PrimFloat.eqb n 0 || isNaN n)
  | JString s => truthy (Some s)
  | JArray _ | JObject _ => true
  end.

(** [a || b] *)
Definition orElse (a b : JsValue) : JsValue := if truthyValue a then a else b.

(** [items.join(sep)] on strings. *)
Fixpoint join (sep : string) (items : list string) : string :=
  match items with
  | [] => EmptyString
  | [item] => item
  | item :: rest => item +:+ sep +:+ join sep rest
  end.

Section ToString.
(** [Number.prototype.toString] of the runtime. *)
Variable numberToString : float → string.

(** The string a template literal prints for a value: an array prints its
    elements joined by commas, [null] and [undefined] elements as nothing;
    a plain object prints [[object Object]]. *)
Fixpoint toStringValue (v : JsValue) : string :=
  match v with
  | JUndefined => "undefined"
  | JNull => "null"
  | JBool true => "true"
  | JBool false => "false"
  | JNumber n => numberToString n
  | JString s => s
  | JArray items =>
    join "," (List.map (λ item, match item with
                               | JUndefined | JNull => EmptyString
                               | _ => toStringValue item
                               end) items)
  | JObject _ => "[object Object]"
  end.
End ToString.

(** The argument of [storage.createAuditLog] in the routes that take the
    document from the URL: the id is the number [parseInt] returned. *)
Record AuditRecord := mkAuditRecord {
  logDocumentId : float;
  logUserId : nat;
  logAction : string;
  logDetails : string
}.

(** [{ ...document, isSigned: true, signatureData }] *)
Record SignedDocument (Document : Type) := mkSigned {
  spread : Document;
  signedFlag : bool;
  signatureData : string
}.
Arguments mkSigned {Document} spread signedFlag signatureData.

(** The object literal of lines 179-183. *)
Record ShareData := mkShareData {
  shareDocumentId : float;
  shareUserId : float;
  permission : JsValue
}.

(** What a handler sends: [res.status(code).json(body)], [res.json(body)]
    (status 200) with a stored value that may be [undefined]. *)
Inductive Payload (Entity : Type) :=
| Message (text : string)
| Stored (entity : option Entity)
| Created (entity : Entity).
Arguments Message {Entity} text.
Arguments Stored {Entity} entity.
Arguments Created {Entity} entity.

Record Reply (Entity : Type) := mkReply {
  code : nat;
  payload : Payload Entity
}.
Arguments mkReply {Entity} code payload.
Arguments code {Entity} r.
Arguments payload {Entity} r.

Section Sign.
Variable randomSource : nat → string.
Variable parseInt : string → float.
Variable toUpperCase : string → string.
Variables Document AuditLog Storage : Type.
Variable getDocument : float → Storage → completion (option Document) * Storage.
Variable updateDocument :
  float → SignedDocument Document → Storage → completion (option Document) * Storage.
Variable createAuditLog : AuditRecord → Storage → completion AuditLog * Storage.

(** The handler of [POST /api/documents/:id/sign]; [id] is [req.params.id]. *)
Definition signHandler (id : string) : M (World * Storage) (Reply Document) :=
  try_catch
    (let documentId := parseInt id in
     document ← inStorage Storage (getDocument documentId);
     match document with
     | None => mret (mkReply 404 (Message "Document non trouvé"))
     | Some document =>
       uuid ← inWorld Storage (randomUUID randomSource);
       let signatureData := "digital_signature_" +:+ uuid in
       updatedDoc ← inStorage Storage
         (updateDocument documentId (mkSigned document true signatureData));
       _ ← inStorage Storage
         (createAuditLog
            (mkAuditRecord documentId 1 "sign"
               ("Document signed with certificate #"
                +:+ toUpperCase (substring0 8 signatureData))));
       mret (mkReply 200 (Stored updatedDoc))
     end)
    (λ error,
       mret (mkReply 500 (Message "Erreur lors de la signature du document"))).
End Sign.

Section Share.
(** [Math.random()] reads the random source; [Math.floor]. *)
Variable mathRandom : nat → float.
Variable floor : float → float.
Variable parseInt : string → float.
Variable numberToString : float → string.
Variables ValidShare Share AuditLog Storage : Type.
Variable insertDocumentShareSchema_parse : ShareData → completion ValidShare.
Variable createDocumentShare : ValidShare → Storage → completion Share * Storage.
Variable createAuditLog : AuditRecord → Storage → completion AuditLog * Storage.

(** [Math.random()] *)
Definition Math_random : M World float := λ w,
  (Normal (mathRandom (randomReads w)),
   mkWorld (clockReads w) (S (randomReads w)) (console w)).

(** The handler of [POST /api/documents/:id/shares]; [id] is
    [req.params.id], [body] is [req.body]. *)
Definition shareHandler (id : string) (body : JsValue)
  : M (World * Storage) (Reply Share) :=
  try_catch
    (let documentId := parseInt id in
     r ← inWorld Storage Math_random;
     requested ← lift (getProperty body "permission");
     let shareData :=
       mkShareData documentId (floor (r * 1000) + 2)%float
         (orElse requested (JString "read")) in
     validatedShare ← lift (insertDocumentShareSchema_parse shareData);
     share ← inStorage Storage (createDocumentShare validatedShare);
     email ← lift (getProperty body "email");
     printed ← lift (getProperty body "permission");
     _ ← inStorage Storage
       (createAuditLog
          (mkAuditRecord documentId 1 "share"
             ("Document shared with user: " +:+ toStringValue numberToString email
              +:+ " (" +:+ toStringValue numberToString printed +:+ ")")));
     mret (mkReply 201 (Created share)))
    (λ error, mret (mkReply 500 (Message "Erreur lors du partage du document"))).
End Share.

End Handlers.

(** ** The page header ([Header]) *)

Module Header.
Import Js.

(** [location.startsWith('/document/')] *)
Definition isDocumentView (location : string) : bool :=
  String.prefix "/document/" location.

(** [location.split('/')[2]]: [None] is [undefined]. *)
Definition documentIdOf (location : string) : option string :=
  split "/" location !! 2.

(** [handleDownloadDocument]: the address the window is sent to, if any. *)
Definition handleDownloadDocument (location : string) : option string :=
  let documentId := documentIdOf location in
  if truthy documentId
  then Some ("/api/documents/" +:+ default "" documentId +:+ "/download")
  else None.

(** [mutationFn] of [signDocument]: the request handed to [apiRequest]
    (method and address). *)
Definition signDocument_mutationFn (location : string) : completion (string * string) :=
  let documentId := documentIdOf location in
  if negb (truthy documentId) then Throw (Error "ID de document manquant")
  else Normal ("POST", "/api/documents/" +:+ default "" documentId +:+ "/sign").

End Header.

(** ** The upload route with its middleware ([server/routes.ts], lines 9-13 and 60) *)

Module UploadRoute.
Import Js Routes.

(** The options of [multer({ storage, limits: { fileSize } })]: the limit on
    the size of a file, in bytes. *)
Record MulterOptions := mkMulterOptions { fileSize : N }.

(** [upload], the instance of lines 10-13. *)
Definition upload : MulterOptions := mkMulterOptions (10 * 1024 * 1024).

(** What a route leaves behind: the response its handler sent, or the error
    a middleware passed to [next], which the application's error handling
    answers and the route's handler never sees. *)
Inductive RouteOutcome (Document : Type) :=
| Responded (response : Response Document)
| ToErrorHandler (error : JsError).
Arguments Responded {Document} response.
Arguments ToErrorHandler {Document} error.

Section Route.
(** The request as it arrives, and [upload.single(name)]: the middleware
    either calls [next()] with [req.file] and [req.body] filled in, or
    calls [next(err)]. *)
Variable RawRequest : Type.
Variable single : MulterOptions → string → RawRequest → completion Request.

Variable wallClock : nat → Date.
Variable randomSource : nat → string.
Variable JSON_parse : string → completion JsValue.
Variable toFixed : float → nat → string.
Variable toBase64 : list Byte.byte → string.
Variables InsertDocument Document AuditLog Storage : Type.
Variable insertDocumentSchema_parse : DocumentInput → completion InsertDocument.
Variable id : Document → nat.
Variable createDocument : InsertDocument → Storage → completion Document * Storage.
Variable createAuditLog : AuditLogInput → Storage → completion AuditLog * Storage.

(** [app.post('/api/documents/upload', upload.single('file'), handler)] *)
Definition uploadRoute (raw : RawRequest)
  : M (World * Storage) (RouteOutcome Document) :=
  match single upload "file" raw with
  | Throw err => mret (ToErrorHandler err)
  | Normal req =>
    response ← uploadHandler wallClock randomSource JSON_parse toFixed toBase64
                 InsertDocument Document AuditLog Storage
                 insertDocumentSchema_parse id createDocument createAuditLog req;
    mret (Responded response)
  end.
End Route.

End UploadRoute.

(** ** multer's [single], on a request with at most one file part *)

Module Multer.
Import Js Routes UploadRoute.

(** A file part of a multipart body, as a stream: the name of its field,
    its file name and type, its length and its bytes. *)
Record FilePart := mkFilePart {
  fieldname : string;
  filename : string;
  partType : string;
  partLength : N;
  partByte : N → Byte.byte
}.

(** A multipart body with at most one file part and the [options] field. *)
Record Multipart := mkMultipart {
  attachment : option FilePart;
  optionsField : option string
}.

(** The buffer the memory storage collects. *)
Definition collect (part : FilePart) : list Byte.byte :=
  List.map (λ k, partByte part (N.of_nat k)) (seq 0 (N.to_nat (partLength part))).

(** [upload.single(name)] as multer documents it: a file in another field
    and a file longer than the limit are errors passed to [next]; otherwise
    the file, if any, becomes [req.file]. *)
Definition single (options : MulterOptions) (name : string) (raw : Multipart)
  : completion Request :=
  match attachment raw with
  | None => Normal (mkRequest None (optionsField raw))
  | Some part =>
    if negb (String.eqb (fieldname part) name)
    then Throw (Error "Unexpected field")
    else if (fileSize options <? partLength part)%N
    then Throw (Error "File too large")
    else Normal (mkRequest
                   (Some (mkFile (filename part) (collect part) (partType part)
                            (PrimFloat.of_uint63 (Uint63.of_Z (Z.of_N (partLength part))))))
                   (optionsField raw))
  end.

End Multer.

(** ** Vocabulary for the properties of the stamped pages *)

Module PageVocabulary.
Import Stamper.

(** The number of texts drawn on a page. *)
Definition overlays (p : PDFPage) : nat :=
  length (List.filter Sample.isDrawnText (contents p)).

End PageVocabulary.

(** ** Vocabulary for the properties of the routes *)

Module RouteVocabulary.
Import Js Routes.

(** The identifiers the generators build from the clock read [c] and the
    random read [r], when the instant is valid. *)
Definition uidAt (wallClock : nat → Date) (randomSource : nat → string)
    (c r : nat) : string :=
  "UID-" +:+ dateStamp (wallClock c) +:+ "-" +:+ timeStamp (wallClock c)
  +:+ "-USR0042-CPY7890-" +:+ substring0 16 (removeAll "-" (randomSource r)).
Definition tokenAt (wallClock : nat → Date) (randomSource : nat → string)
    (c r : nat) : string :=
  "DOC-" +:+ dateStamp (wallClock c) +:+ "-" +:+ timeStamp (wallClock c)
  +:+ "-" +:+ substring0 16 (removeAll "-" (randomSource r)).

(** The options object the upload handler works with. *)
Definition parsedOptions (JSON_parse : string → completion JsValue)
    (req : Request) : completion JsValue :=
  if truthy (options req) then JSON_parse (default "" (options req))
  else Normal defaultOptions.

(** The world after the upload handler has logged [e]. *)
Definition afterUploadError (e : JsError) (w : World) : World :=
  mkWorld (clockReads w) (randomReads w)
    (console w ++ [consoleLine "Upload error:" e]).

End RouteVocabulary.

(** ** More sample inputs *)

Module MoreSamples.
Import Js Routes Handlers Sample.

(** A toy runtime: upper case of the ASCII letters. *)
Definition upperChar (c : ascii) : ascii :=
  let n := nat_of_ascii c in
  if (97 <=? n) && (n <=? 122) then ascii_of_nat (n - 32) else c.

Fixpoint sampleUpperCase (s : string) : string :=
  match s with
  | EmptyString => EmptyString
  | String c rest => String (upperChar c) (sampleUpperCase rest)
  end.

Definition sampleParseInt (s : string) : float :=
  if String.eqb s "7" then 7%float else PrimFloat.nan.

(** A toy store for the sign and share routes: the signed documents, the
    shares and the audit records. *)
Definition signStore : Type :=
  list (SignedDocument string) * list AuditRecord.

Definition sampleGetDocument (documentId : float) (st : signStore)
  : completion (option string) * signStore :=
  (Normal (if PrimFloat.eqb documentId 7 then Some "contrat.pdf" else None), st).

Definition sampleUpdateDocument (documentId : float) (d : SignedDocument string)
    (st : signStore) : completion (option string) * signStore :=
  (Normal (Some (spread string d)), (st.1 ++ [d], st.2)).

Definition sampleSignAudit (r : AuditRecord) (st : signStore)
  : completion AuditRecord * signStore :=
  (Normal r, (st.1, st.2 ++ [r])).

Definition sampleSign :=
  signHandler sampleUuid sampleParseInt sampleUpperCase string AuditRecord signStore
    sampleGetDocument sampleUpdateDocument sampleSignAudit.

Definition shareStore : Type := list ShareData * list AuditRecord.

Definition sampleShare :=
  shareHandler (λ _, 0.5%float) (λ x, x) sampleParseInt (λ _, "7")
    ShareData ShareData AuditRecord shareStore
    (λ d, Normal d)
    (λ d st, (Normal d, (st.1 ++ [d], st.2)))
    (λ r st, (Normal r, (st.1, st.2 ++ [r]))).

(** A parser for one more options text, and an audit store that is down. *)
Definition sampleJSON2 (text : string) : completion JsValue :=
  if String.eqb text "keep"
  then Normal (JObject [("generateNewUid", JBool false); ("addToken", JBool false);
                        ("signAfterImport", JBool false)])
  else Throw (Error "Unexpected token in JSON").

Definition sampleUpload2 :=
  uploadHandler sampleClock sampleUuid sampleJSON2 sampleToFixed sampleBase64
    DocumentInput (nat * DocumentInput) AuditLogInput sampleStore
    sampleSchema fst sampleCreateDocument sampleCreateAuditLog.

Definition failingAuditLog (entry : AuditLogInput) (st : sampleStore)
  : completion AuditLogInput * sampleStore :=
  (Throw (Error "audit store is down"), st).

(** An upload with a file and no options. *)
Definition successfulRequest : Request := mkRequest (Some sampleFile) None.

(** The sample server behind multer. *)
Definition sampleRoute :=
  UploadRoute.uploadRoute Multer.Multipart Multer.single
    sampleClock sampleUuid sampleJSON sampleToFixed sampleBase64
    DocumentInput (nat * DocumentInput) AuditLogInput sampleStore
    sampleSchema fst sampleCreateDocument sampleCreateAuditLog.

(** A file of 11 MB in the field [file], a small file in the field
    [document], and a small file in the field [file]. *)
Definition oversizedPart : Multer.FilePart :=
  Multer.mkFilePart "file" "gros.pdf" "application/pdf" (11 * 1024 * 1024)
    (λ _, Byte.x00).
Definition misnamedPart : Multer.FilePart :=
  Multer.mkFilePart "document" "contrat.pdf" "application/pdf" 1 (λ _, Byte.x01).
Definition smallPart : Multer.FilePart :=
  Multer.mkFilePart "file" "contrat.pdf" "application/pdf" 1 (λ _, Byte.x01).

(** A document without pages, the blank page pdf-lib adds to such a
    document when it saves it, and a toy file format for the two. *)
Definition pagelessDocument : Stamper.PDFDocument := Stamper.mkDocument [] [].
Definition blankPage : Stamper.PDFPage := Stamper.mkPage 595.28 841.89 [].

Definition defaultPageLoad (b : Stamper.Buffer) : completion Stamper.PDFDocument :=
  match b with
  | [Byte.x00] => Normal pagelessDocument
  | [Byte.x0a] => Normal (Stamper.mkDocument [blankPage] [])
  | _ => Throw (Error "Failed to parse PDF document")
  end.

Definition defaultPageSave (d : Stamper.PDFDocument) : completion Stamper.Buffer :=
  match Stamper.pages d with
  | [] => Normal [Byte.x0a]
  | _ => Normal [Byte.x0b]
  end.

(** A font that cannot encode the digit 2. *)
Definition pickyFont : Stamper.PDFFont :=
  Stamper.mkFont Stamper.Helvetica
    (λ text size,
       if allChars (λ c, negb (Ascii.eqb c "2")) text then Normal 100%float
       else Throw (Error "WinAnsi cannot encode"))
    (λ text, Normal text).

End MoreSamples.

(** ** Properties of the footer stamper *)

Module StamperFacts.
Import Js Stamper.

Lemma app_cons (ch : ascii) (a b : string) : String ch a +:+ b = String ch (a +:+ b).
Proof. reflexivity. Qed.

Lemma app_empty (b : string) : "" +:+ b = b.
Proof. reflexivity. Qed.

Lemma app_empty_r (a : string) : a +:+ "" = a.
Proof. induction a as [|ch a IH]; [done|]. by rewrite app_cons, IH. Qed.

Lemma app_assoc' (a b c : string) : (a +:+ b) +:+ c = a +:+ (b +:+ c).
Proof.
  induction a as [|ch a IH]; [done|]. rewrite !app_cons. by rewrite IH.
Qed.

Section Loop.
Variables (uid token : string) (signatureInfo : option string).
Variables (font : PDFFont) (fontSize : float) (timestamp : string).

Abbreviation footerText := (footerText uid token signatureInfo timestamp).
Abbreviation stampPage := (stampPage uid token signatureInfo font fontSize timestamp).
Abbreviation stampLoop := (stampLoop uid token signatureInfo font fontSize timestamp).

(** What one iteration does to its page when nothing throws. *)
Lemma stampPage_Normal i n page page' :
  stampPage i n page = Normal page' ↔
  ∃ textWidth encoded,
    widthOfTextAtSize font (footerText i n) fontSize = Normal textWidth ∧
    encodeText font (footerText i n) = Normal encoded ∧
    page' = mkPage (width page) (height page)
              (contents page ++
               [DrawnText (footerText i n)
                  (mkOptions ((width page - textWidth) / 2)%float 10%float
                     fontSize font (rgb 0.7 0.7 0.7) 0.5)]).
Proof.
  unfold Stamper.stampPage, drawText; simpl.
  destruct (widthOfTextAtSize font (footerText i n) fontSize) as [tw|e]; simpl.
  - destruct (encodeText font (footerText i n)) as [enc|e]; simpl.
    + split.
      * intros [= <-]. by exists tw, enc.
      * intros (tw' & enc' & [= <-] & _ & ->). done.
    + split; [done|]. intros (? & ? & _ & ? & _). done.
  - split; [done|]. intros (? & ? & ? & _). done.
Qed.

Lemma stampPage_renders i n page :
  renders font fontSize (footerText i n) → ∃ page', stampPage i n page = Normal page'.
Proof.
  intros [[tw Hw] [enc He]]. eexists. apply stampPage_Normal. by exists tw, enc.
Qed.

(** The loop, started at index [i] with enough fuel to reach the end of
    the array: either every page from [i] on has been stamped and the
    pages before [i] are untouched, or some iteration threw. *)
Lemma stampLoop_inv fuel i ps :
  length ps ≤ fuel + i →
  match stampLoop fuel i ps with
  | Normal ps' =>
    length ps' = length ps ∧
    ∀ j p, ps !! j = Some p →
      if decide (j < i) then ps' !! j = Some p
      else ∃ p', stampPage j (length ps) p = Normal p' ∧ ps' !! j = Some p'
  | Throw e =>
    ∃ j p, i ≤ j ∧ ps !! j = Some p ∧ stampPage j (length ps) p = Throw e
  end.
Proof.
  revert i ps. induction fuel as [|fuel IH]; intros i ps Hfuel; simpl.
  - split; [done|]. intros j p Hj. pose proof (lookup_lt_Some _ _ _ Hj).
    case_decide; [done|lia].
  - destruct (ps !! i) as [page|] eqn:Hi.
    + destruct (stampPage i (length ps) page) as [page'|e] eqn:Hpage; simpl.
      * specialize (IH (S i) (<[i:=page']> ps)).
        rewrite length_insert in IH. specialize (IH ltac:(lia)).
        destruct (Stamper.stampLoop _ _ _ _ _ _ fuel (S i) (<[i:=page']> ps))
          as [ps'|e]; simpl in *.
        -- destruct IH as [Hlen IH]. split; [done|]. intros j p Hj.
           destruct (decide (j = i)) as [->|Hne].
           ++ rewrite decide_False by lia. exists page'.
              assert (p = page) as -> by congruence. split; [done|].
              specialize (IH i page'). rewrite decide_True in IH by lia.
              apply IH, list_lookup_insert_eq. by eapply lookup_lt_Some.
           ++ specialize (IH j p). rewrite list_lookup_insert_ne in IH by done.
              specialize (IH Hj). repeat case_decide; try done; lia.
        -- destruct IH as (j & p & Hle & Hj & Hthrow).
           exists j, p. rewrite list_lookup_insert_ne in Hj by lia.
           split; [lia|done].
      * exists i, page. done.
    + apply lookup_ge_None in Hi. split; [done|]. intros j p Hj.
      pose proof (lookup_lt_Some _ _ _ Hj). case_decide; [done|lia].
Qed.

(** The whole loop does not throw when the font renders every footer. *)
Lemma stampLoop_total ps :
  (∀ i, i < length ps → renders font fontSize (footerText i (length ps))) →
  ∃ ps', stampLoop (length ps) 0 ps = Normal ps' ∧ length ps' = length ps ∧
    ∀ i p, ps !! i = Some p →
      ∃ p', stampPage i (length ps) p = Normal p' ∧ ps' !! i = Some p'.
Proof.
  intros Hfont. pose proof (stampLoop_inv (length ps) 0 ps ltac:(lia)) as H.
  destruct (stampLoop (length ps) 0 ps) as [ps'|e].
  - exists ps'. destruct H as [Hlen H]. split; [done|]. split; [done|].
    intros i p Hi. specialize (H i p Hi). by rewrite decide_False in H by lia.
  - destruct H as (j & p & _ & Hj & Hthrow).
    destruct (stampPage_renders j (length ps) p) as [p' Hp'].
    { apply Hfont. by eapply lookup_lt_Some. }
    congruence.
Qed.
End Loop.

Section Document.
Variable load : Buffer → completion PDFDocument.
Variable standardFont : StandardFonts → completion PDFFont.
Variable save : PDFDocument → completion Buffer.
Variable wallClock : nat → Date.
Variable toLocaleString : Date → string → string.

Abbreviation stampDocument := (stampDocument standardFont wallClock toLocaleString).
Abbreviation addUidAndTokenToPdf :=
  (addUidAndTokenToPdf load standardFont save wallClock toLocaleString).

Abbreviation timestampAt := (timestampAt wallClock toLocaleString).

(** Lines 23-64 on a parsed document: all pages stamped, or the error of
    the step that threw. *)
Lemma stampDocument_inv doc uid token signatureInfo w :
  match stampDocument doc uid token signatureInfo w with
  | (Normal doc', w') =>
    ∃ font, standardFont Helvetica = Normal font ∧ w' = afterClockRead w ∧
      stampedWith uid token signatureInfo font (timestampAt w) doc doc'
  | (Throw e, w') =>
    (standardFont Helvetica = Throw e ∧ w' = w) ∨
    ∃ font i p, standardFont Helvetica = Normal font ∧ w' = afterClockRead w ∧
      pages doc !! i = Some p ∧
      stampPage uid token signatureInfo font 6 (timestampAt w)
        i (length (pages doc)) p = Throw e
  end.
Proof.
  unfold Stamper.stampDocument, embedFont, Stamper.timestampAt.
  unfold mbind, M_bind, lift, newDate; simpl.
  destruct (standardFont Helvetica) as [font|e]; simpl; [|by left].
  pose proof (stampLoop_inv uid token signatureInfo font 6
                (toLocaleString (wallClock (clockReads w)) "fr-FR")
                (length (pages doc)) 0 (pages doc) ltac:(lia)) as H.
  destruct (stampLoop _ _ _ _ _ _ (length (pages doc)) 0 (pages doc))
    as [ps'|e]; simpl.
  - destruct H as [Hlen H]. exists font. split; [done|]. split; [done|].
    split; [done|]. split; [done|]. simpl. intros i p Hi.
    specialize (H i p Hi). rewrite decide_False in H by lia.
    destruct H as (p' & Hp' & Hi'). apply stampPage_Normal in Hp'.
    destruct Hp' as (tw & enc & Hw & _ & ->). by exists tw.
  - destruct H as (j & p & _ & Hj & Hthrow). right. by exists font, j, p.
Qed.

(** The stamping of a parsed document succeeds when the font is available
    and renders every footer. *)
Lemma stampDocument_total doc uid token signatureInfo font w :
  standardFont Helvetica = Normal font →
  (∀ i, i < length (pages doc) →
     renders font 6 (footerText uid token signatureInfo (timestampAt w)
                       i (length (pages doc)))) →
  ∃ doc', stampDocument doc uid token signatureInfo w = (Normal doc', afterClockRead w) ∧
    stampedWith uid token signatureInfo font (timestampAt w) doc doc'.
Proof.
  intros Hfont Hrenders.
  pose proof (stampDocument_inv doc uid token signatureInfo w) as H.
  destruct (stampDocument doc uid token signatureInfo w) as [[doc'|e] w'].
  - destruct H as (font' & Hfont' & -> & H). exists doc'.
    assert (font' = font) as -> by congruence. done.
  - destruct H as [[H _]|(font' & i & p & Hfont' & _ & Hi & Hthrow)]; [congruence|].
    assert (font' = font) as -> by congruence.
    destruct (stampPage_renders uid token signatureInfo font 6 (timestampAt w)
                i (length (pages doc)) p) as [p' Hp'].
    { apply Hrenders. by eapply lookup_lt_Some. }
    congruence.
Qed.

(** The whole routine: the three steps in sequence, and the handler on
    the first error. *)
Lemma addUidAndTokenToPdf_unfold pdfBuffer uid token signatureInfo w :
  addUidAndTokenToPdf pdfBuffer uid token signatureInfo w =
  let failed (e : JsError) (w' : World) :=
    (Throw (Error genericMessage),
     mkWorld (clockReads w') (randomReads w')
       (console w' ++ [consoleLine "Erreur lors de la modification du PDF:" e])) in
  match load pdfBuffer with
  | Throw e => failed e w
  | Normal doc =>
    match stampDocument doc uid token signatureInfo w with
    | (Throw e, w') => failed e w'
    | (Normal doc', w') =>
      match save doc' with
      | Throw e => failed e w'
      | Normal out => (Normal out, w')
      end
    end
  end.
Proof.
  unfold Stamper.addUidAndTokenToPdf, try_catch, mbind, M_bind, lift; simpl.
  destruct (load pdfBuffer) as [doc|e]; simpl; [|done].
  destruct (stampDocument doc uid token signatureInfo w) as [[doc'|e] w']; [|done].
  destruct (save doc') as [out|e]; done.
Qed.

Lemma addUidAndTokenToPdf_Normal pdfBuffer uid token signatureInfo w doc doc' w' out :
  load pdfBuffer = Normal doc →
  stampDocument doc uid token signatureInfo w = (Normal doc', w') →
  save doc' = Normal out →
  addUidAndTokenToPdf pdfBuffer uid token signatureInfo w = (Normal out, w').
Proof.
  intros Hload Hstamp Hsave. rewrite addUidAndTokenToPdf_unfold; simpl.
  by rewrite Hload, Hstamp, Hsave.
Qed.
Lemma occursIn_here (pre s post : string) : occursIn s (pre +:+ s +:+ post).
Proof. by exists pre, post. Qed.

Lemma occursIn_later (pre s t : string) : occursIn s t → occursIn s (pre +:+ t).
Proof.
  intros (a & b & ->). exists (pre +:+ a), b. by rewrite app_assoc'.
Qed.

(** The footer when the signature test is false. *)
Lemma footerText_falsy uid token signatureInfo timestamp i n :
  truthy signatureInfo = false →
  footerText uid token signatureInfo timestamp i n =
  "BeaverDoc - UID: " +:+ uid +:+ " | Token: " +:+ token
  +:+ " | Page " +:+ pretty (i + 1) +:+ "/" +:+ pretty n.
Proof. unfold footerText. by intros ->. Qed.

(** The footer when the signature test is true. *)
Lemma footerText_truthy uid token s timestamp i n :
  s ≠ "" →
  footerText uid token (Some s) timestamp i n =
  ("BeaverDoc - UID: " +:+ uid +:+ " | Token: " +:+ token
   +:+ " | Page " +:+ pretty (i + 1) +:+ "/" +:+ pretty n)
  +:+ " | " +:+ s +:+ " | Horodaté le " +:+ timestamp.
Proof.
  intros Hs. unfold footerText. by destruct s as [|c s].
Qed.

(** C1: without signatureInfo, the footer drawn on page i+1 of N is
    "BeaverDoc - UID: <uid> | Token: <token> | Page <i+1>/<N>"; it contains
    uid and token verbatim; on a one-page document with uid "UID-X" and
    token "DOC-Y" it is "BeaverDoc - UID: UID-X | Token: DOC-Y | Page 1/1". *)
Theorem footer_without_signature pdfBuffer uid token doc font w :
  load pdfBuffer = Normal doc →
  standardFont Helvetica = Normal font →
  (∀ i, i < length (pages doc) →
     renders font 6 (footerText uid token None (timestampAt w) i (length (pages doc)))) →
  ∃ doc',
    stampDocument doc uid token None w = (Normal doc', afterClockRead w) ∧
    (∀ out, save doc' = Normal out →
       addUidAndTokenToPdf pdfBuffer uid token None w = (Normal out, afterClockRead w)) ∧
    ∀ i p, pages doc !! i = Some p →
      let text := "BeaverDoc - UID: " +:+ uid +:+ " | Token: " +:+ token
                  +:+ " | Page " +:+ pretty (i + 1) +:+ "/"
                  +:+ pretty (length (pages doc)) in
      (∃ p' options, pages doc' !! i = Some p' ∧
         contents p' = contents p ++ [DrawnText text options]) ∧
      occursIn uid text ∧ occursIn token text ∧
      (uid = "UID-X" → token = "DOC-Y" → length (pages doc) = 1 →
       text = "BeaverDoc - UID: UID-X | Token: DOC-Y | Page 1/1").
Proof.
  intros Hload Hfont Hrenders.
  destruct (stampDocument_total doc uid token None font w Hfont Hrenders)
    as (doc' & Hrun & _ & Hlen & Hpages).
  exists doc'. split; [done|]. split.
  { intros out Hsave. by eapply addUidAndTokenToPdf_Normal. }
  intros i p Hi text. repeat split.
  - destruct (Hpages i p Hi) as (tw & _ & Hi'). simpl in Hi'.
    rewrite footerText_falsy in Hi' by done.
    eexists _, _. split; [exact Hi'|done].
  - apply occursIn_here.
  - do 2 apply occursIn_later. apply occursIn_here.
  - intros -> -> Hone. subst text. rewrite Hone.
    assert (i = 0) as -> by (apply lookup_lt_Some in Hi; lia). done.
Qed.

(** C2 (as amended): when signatureInfo is supplied and is not the empty
    string, the footer of every page is the footer without signature followed
    by " | <signatureInfo> | Horodaté le <timestamp>"; when signatureInfo is
    omitted, it is the footer without signature, with neither field; on a
    three-page document with signatureInfo "Signed by Alice", the footer of
    page 2 is "BeaverDoc - UID: <uid> | Token: <token> | Page 2/3 | Signed by
    Alice | Horodaté le <timestamp>". *)
Theorem footer_with_signature pdfBuffer uid token signatureInfo doc font w :
  load pdfBuffer = Normal doc →
  standardFont Helvetica = Normal font →
  (∀ i, i < length (pages doc) →
     renders font 6 (footerText uid token signatureInfo (timestampAt w)
                       i (length (pages doc)))) →
  ∃ doc',
    stampDocument doc uid token signatureInfo w = (Normal doc', afterClockRead w) ∧
    (∀ out, save doc' = Normal out →
       addUidAndTokenToPdf pdfBuffer uid token signatureInfo w
       = (Normal out, afterClockRead w)) ∧
    ∀ i p, pages doc !! i = Some p →
      let base := "BeaverDoc - UID: " +:+ uid +:+ " | Token: " +:+ token
                  +:+ " | Page " +:+ pretty (i + 1) +:+ "/"
                  +:+ pretty (length (pages doc)) in
      ∃ p' text options,
        pages doc' !! i = Some p' ∧
        contents p' = contents p ++ [DrawnText text options] ∧
        (∀ s, signatureInfo = Some s → s ≠ "" →
           text = base +:+ " | " +:+ s +:+ " | Horodaté le " +:+ timestampAt w) ∧
        (signatureInfo = None → text = base) ∧
        (signatureInfo = Some "Signed by Alice" → length (pages doc) = 3 → i = 1 →
           text = "BeaverDoc - UID: " +:+ uid +:+ " | Token: " +:+ token
                  +:+ " | Page 2/3 | Signed by Alice | Horodaté le " +:+ timestampAt w).
Proof.
  intros Hload Hfont Hrenders.
  destruct (stampDocument_total doc uid token signatureInfo font w Hfont Hrenders)
    as (doc' & Hrun & _ & Hlen & Hpages).
  exists doc'. split; [done|]. split.
  { intros out Hsave. by eapply addUidAndTokenToPdf_Normal. }
  intros i p Hi base.
  destruct (Hpages i p Hi) as (tw & _ & Hi'). simpl in Hi'.
  eexists _, _, _. split; [exact Hi'|]. split; [done|]. repeat split.
  - intros s -> Hs. by rewrite footerText_truthy.
  - intros ->. by rewrite footerText_falsy.
  - intros -> Hthree ->. rewrite footerText_truthy by done. rewrite Hthree.
    by rewrite !app_assoc'.
Qed.

(** C3: on a page of width W, the footer is drawn at size 6, at
    x = (W - Tw) / 2 where Tw is the width the font measures for the footer
    text at size 6, and at y = 10; x is computed the same way when Tw exceeds
    W, e.g. x = -50 for W = 100 and Tw = 200. *)
Theorem footer_placement pdfBuffer uid token signatureInfo doc font w :
  load pdfBuffer = Normal doc →
  standardFont Helvetica = Normal font →
  (∀ i, i < length (pages doc) →
     renders font 6 (footerText uid token signatureInfo (timestampAt w)
                       i (length (pages doc)))) →
  ∃ doc',
    stampDocument doc uid token signatureInfo w = (Normal doc', afterClockRead w) ∧
    (∀ out, save doc' = Normal out →
       addUidAndTokenToPdf pdfBuffer uid token signatureInfo w
       = (Normal out, afterClockRead w)) ∧
    ∀ i p, pages doc !! i = Some p →
      ∃ p' text options textWidth,
        pages doc' !! i = Some p' ∧
        contents p' = contents p ++ [DrawnText text options] ∧
        widthOfTextAtSize font text 6 = Normal textWidth ∧
        size options = 6%float ∧
        x options = ((width p - textWidth) / 2)%float ∧
        y options = 10%float ∧
        (width p = 100%float → textWidth = 200%float →
         x options = (-50)%float ∧ PrimFloat.ltb (x options) 0 = true).
Proof.
  intros Hload Hfont Hrenders.
  destruct (stampDocument_total doc uid token signatureInfo font w Hfont Hrenders)
    as (doc' & Hrun & _ & Hlen & Hpages).
  exists doc'. split; [done|]. split.
  { intros out Hsave. by eapply addUidAndTokenToPdf_Normal. }
  intros i p Hi. destruct (Hpages i p Hi) as (tw & Hw & Hi'). simpl in Hi'.
  eexists _, _, _, tw. split; [exact Hi'|]. split; [done|]. split; [exact Hw|].
  simpl. do 3 (split; [done|]). intros -> ->. by split.
Qed.

(** The footer is a prefix and a suffix, the same on all pages, around the
    page number. *)
Lemma footerText_around uid token signatureInfo timestamp n :
  ∃ before after,
    (∀ i, footerText uid token signatureInfo timestamp i n
          = before +:+ pretty (i + 1) +:+ after) ∧
    (∀ s, signatureInfo = Some s → s ≠ "" →
       after = "/" +:+ pretty n +:+ " | " +:+ s +:+ " | Horodaté le " +:+ timestamp).
Proof.
  exists ("BeaverDoc - UID: " +:+ uid +:+ " | Token: " +:+ token +:+ " | Page ").
  destruct signatureInfo as [[|c s]|].
  - exists ("/" +:+ pretty n). split; [|by intros ? [= <-]].
    intros i. rewrite footerText_falsy by done. by rewrite !app_assoc'.
  - exists ("/" +:+ pretty n +:+ " | " +:+ String c s
            +:+ " | Horodaté le " +:+ timestamp).
    split; [|by intros ? [= <-]].
    intros i. rewrite footerText_truthy by done. by rewrite !app_assoc'.
  - exists ("/" +:+ pretty n). split; [|done].
    intros i. rewrite footerText_falsy by done. by rewrite !app_assoc'.
Qed.

(** C5: within one invocation the footers of all pages are the same text
    around the page number; the clock is read once, and with a signature the
    text after the page number ends with the timestamp of that one read. *)
Theorem footers_differ_only_in_page_number pdfBuffer uid token signatureInfo doc font w :
  load pdfBuffer = Normal doc →
  standardFont Helvetica = Normal font →
  (∀ i, i < length (pages doc) →
     renders font 6 (footerText uid token signatureInfo (timestampAt w)
                       i (length (pages doc)))) →
  ∃ doc' w' before after,
    stampDocument doc uid token signatureInfo w = (Normal doc', w') ∧
    (∀ out, save doc' = Normal out →
       addUidAndTokenToPdf pdfBuffer uid token signatureInfo w = (Normal out, w')) ∧
    clockReads w' = S (clockReads w) ∧
    (∀ i p, pages doc !! i = Some p →
       ∃ p' options, pages doc' !! i = Some p' ∧
         contents p' = contents p
                       ++ [DrawnText (before +:+ pretty (i + 1) +:+ after) options]) ∧
    (∀ s, signatureInfo = Some s → s ≠ "" →
       after = "/" +:+ pretty (length (pages doc)) +:+ " | " +:+ s
               +:+ " | Horodaté le "
               +:+ toLocaleString (wallClock (clockReads w)) "fr-FR").
Proof.
  intros Hload Hfont Hrenders.
  destruct (stampDocument_total doc uid token signatureInfo font w Hfont Hrenders)
    as (doc' & Hrun & _ & Hlen & Hpages).
  destruct (footerText_around uid token signatureInfo (timestampAt w)
              (length (pages doc))) as (before & after & Htext & Hafter).
  exists doc', (afterClockRead w), before, after. split; [done|]. split.
  { intros out Hsave. by eapply addUidAndTokenToPdf_Normal. }
  split; [done|]. split; [|exact Hafter].
  intros i p Hi. destruct (Hpages i p Hi) as (tw & _ & Hi'). simpl in Hi'.
  rewrite Htext in Hi'. eexists _, _. split; [exact Hi'|done].
Qed.

(** C6: whatever the input, the routine either returns the serialization of
    a document in which every page has been stamped, or throws the one error
    with the fixed message; the cause (of the parser, the font, a page's
    measuring or drawing, or the serializer) only goes to the console. *)
Theorem failures_collapse pdfBuffer uid token signatureInfo w :
  match addUidAndTokenToPdf pdfBuffer uid token signatureInfo w with
  | (Normal out, w') =>
    console w' = console w ∧
    ∃ doc doc' font,
      load pdfBuffer = Normal doc ∧ standardFont Helvetica = Normal font ∧
      stampedWith uid token signatureInfo font (timestampAt w) doc doc' ∧
      save doc' = Normal out
  | (Throw e, w') =>
    e = Error "Impossible de modifier le PDF pour ajouter l'UID et le token" ∧
    ∃ cause,
      console w' = console w
                   ++ [consoleLine "Erreur lors de la modification du PDF:" cause] ∧
      (load pdfBuffer = Throw cause ∨
       ∃ doc, load pdfBuffer = Normal doc ∧
         (standardFont Helvetica = Throw cause ∨
          (∃ font i p, standardFont Helvetica = Normal font ∧
             pages doc !! i = Some p ∧
             stampPage uid token signatureInfo font 6 (timestampAt w)
               i (length (pages doc)) p = Throw cause) ∨
          (∃ doc' w1, stampDocument doc uid token signatureInfo w = (Normal doc', w1) ∧
             save doc' = Throw cause)))
  end.
Proof.
  rewrite addUidAndTokenToPdf_unfold; simpl.
  destruct (load pdfBuffer) as [doc|cause] eqn:Hload; simpl.
  2: { split; [done|]. exists cause. split; [done|by left]. }
  pose proof (stampDocument_inv doc uid token signatureInfo w) as H.
  destruct (stampDocument doc uid token signatureInfo w) as [[doc'|cause] w1] eqn:Hrun.
  - destruct H as (font & Hfont & -> & Hstamped).
    destruct (save doc') as [out|cause] eqn:Hsave; simpl.
    + split; [done|]. by exists doc, doc', font.
    + split; [done|]. exists cause. split; [done|]. right. exists doc.
      split; [done|]. right. right. by exists doc', (afterClockRead w).
  - simpl. split; [done|]. exists cause.
    destruct H as [[H ->]|(font & i & p & Hfont & -> & Hi & Hthrow)].
    + split; [done|]. right. exists doc. split; [done|]. by left.
    + split; [done|]. right. exists doc. split; [done|]. right. left.
      by exists font, i, p.
Qed.

(** The routine reads the clock at most once and draws no random bits. *)
Lemma addUidAndTokenToPdf_frame pdfBuffer uid token signatureInfo w :
  randomReads (addUidAndTokenToPdf pdfBuffer uid token signatureInfo w).2
  = randomReads w.
Proof.
  rewrite addUidAndTokenToPdf_unfold; simpl.
  destruct (load pdfBuffer) as [doc|cause]; [|done].
  pose proof (stampDocument_inv doc uid token signatureInfo w) as H.
  destruct (stampDocument doc uid token signatureInfo w) as [[doc'|cause] w1].
  - destruct H as (font & _ & -> & _). by destruct (save doc').
  - by destruct H as [[_ ->]|(font & i & p & _ & -> & _)].
Qed.

(** Whatever the strings, the footer shows them as they are. *)
Lemma footerText_shows uid token signatureInfo timestamp i n :
  occursIn uid (footerText uid token signatureInfo timestamp i n) ∧
  occursIn token (footerText uid token signatureInfo timestamp i n).
Proof.
  unfold footerText. destruct (truthy signatureInfo).
  - rewrite !app_assoc'. split; [apply occursIn_here|].
    do 2 apply occursIn_later. apply occursIn_here.
  - split; [apply occursIn_here|]. do 2 apply occursIn_later. apply occursIn_here.
Qed.

(** C7: stamping a document that was already stamped draws a second text
    after the first on every page: the first footer stays, and the twice
    stamped pages differ from the once stamped ones. *)
Theorem stamping_accumulates uid token signatureInfo uid2 token2 signatureInfo2
    doc doc1 out1 font w w1 :
  stampDocument doc uid token signatureInfo w = (Normal doc1, w1) →
  save doc1 = Normal out1 →
  load out1 = Normal doc1 →
  standardFont Helvetica = Normal font →
  (∀ i, i < length (pages doc1) →
     renders font 6 (footerText uid2 token2 signatureInfo2 (timestampAt w1)
                       i (length (pages doc1)))) →
  ∃ doc2,
    stampDocument doc1 uid2 token2 signatureInfo2 w1 = (Normal doc2, afterClockRead w1) ∧
    (∀ out2, save doc2 = Normal out2 →
       addUidAndTokenToPdf out1 uid2 token2 signatureInfo2 w1
       = (Normal out2, afterClockRead w1)) ∧
    (∀ i p, pages doc !! i = Some p →
       ∃ p1 p2 text1 options1 text2 options2,
         pages doc1 !! i = Some p1 ∧ pages doc2 !! i = Some p2 ∧
         contents p1 = contents p ++ [DrawnText text1 options1] ∧
         contents p2 = contents p ++ [DrawnText text1 options1; DrawnText text2 options2]) ∧
    (pages doc ≠ [] → pages doc2 ≠ pages doc1).
Proof.
  intros Hrun1 Hsave1 Hload1 Hfont Hrenders.
  pose proof (stampDocument_inv doc uid token signatureInfo w) as H1.
  rewrite Hrun1 in H1. destruct H1 as (font1 & Hfont1 & -> & _ & Hlen1 & Hpages1).
  assert (font1 = font) as -> by congruence.
  destruct (stampDocument_total doc1 uid2 token2 signatureInfo2 font _ Hfont Hrenders)
    as (doc2 & Hrun2 & _ & Hlen2 & Hpages2).
  assert (∀ i p, pages doc !! i = Some p →
       ∃ p1 p2 text1 options1 text2 options2,
         pages doc1 !! i = Some p1 ∧ pages doc2 !! i = Some p2 ∧
         contents p1 = contents p ++ [DrawnText text1 options1] ∧
         contents p2 = contents p ++ [DrawnText text1 options1; DrawnText text2 options2])
    as Hboth.
  { intros i p Hi. destruct (Hpages1 i p Hi) as (tw1 & _ & Hi1). simpl in Hi1.
    destruct (Hpages2 i _ Hi1) as (tw2 & _ & Hi2). simpl in Hi2.
    eexists _, _, _, _, _, _. split; [exact Hi1|]. split; [exact Hi2|].
    split; [done|]. simpl. by rewrite <- app_assoc. }
  exists doc2. split; [done|]. split.
  { intros out2 Hsave2. by eapply addUidAndTokenToPdf_Normal. }
  split; [exact Hboth|].
  intros Hne Heq. destruct (pages doc) as [|p ps] eqn:Hps; [done|].
  destruct (Hboth 0 p) as (p1 & p2 & t1 & o1 & t2 & o2 & Hp1 & Hp2 & Hc1 & Hc2).
  { done. }
  rewrite Heq in Hp2. assert (p2 = p1) as -> by congruence.
  rewrite Hc1 in Hc2. apply (f_equal length) in Hc2.
  rewrite !length_app in Hc2. simpl in Hc2. lia.
Qed.

(** C9: with signatureInfo the empty string the routine behaves as with no
    signatureInfo: same result, same effects, and a footer with neither the
    signature nor the timestamp. *)
Theorem empty_signature_is_absent pdfBuffer uid token w :
  addUidAndTokenToPdf pdfBuffer uid token (Some "") w
  = addUidAndTokenToPdf pdfBuffer uid token None w ∧
  ∀ timestamp i n,
    footerText uid token (Some "") timestamp i n
    = "BeaverDoc - UID: " +:+ uid +:+ " | Token: " +:+ token
      +:+ " | Page " +:+ pretty (i + 1) +:+ "/" +:+ pretty n.
Proof. split; reflexivity. Qed.
End Document.

(** *** The properties on the sample documents *)

Section Samples.
Import Sample.

Abbreviation sampleStamp := (Stamper.stampDocument sampleStandardFont sampleClock sampleLocale).
Abbreviation sampleRoutine :=
  (Stamper.addUidAndTokenToPdf sampleLoad sampleStandardFont sampleSave
     sampleClock sampleLocale).

(** Runs the code on a concrete input. *)
Ltac evaluate := lazy; reflexivity.

Lemma sampleFont_renders fontSize text : renders sampleFont fontSize text.
Proof. split; eexists; reflexivity. Qed.

Example sample_timestamp :
  Stamper.timestampAt sampleClock sampleLocale world0 = "03/11/2026 10:05:07".
Proof. reflexivity. Qed.

(** The one-page sample, uid "UID-X", token "DOC-Y", no signature. *)
Lemma footer_without_signature_witness :
  ∃ doc',
    sampleStamp onePage "UID-X" "DOC-Y" None world0 = (Normal doc', afterClockRead world0) ∧
    ∃ p' options, pages doc' !! 0 = Some p' ∧
      contents p' =
        [Existing [Byte.x01];
         DrawnText "BeaverDoc - UID: UID-X | Token: DOC-Y | Page 1/1" options].
Proof.
  destruct (footer_without_signature sampleLoad sampleStandardFont sampleSave
              sampleClock sampleLocale [Byte.x01] "UID-X" "DOC-Y" onePage sampleFont
              world0 eq_refl eq_refl (λ i _, sampleFont_renders _ _))
    as (doc' & Hrun & _ & Hpages).
  exists doc'. split; [exact Hrun|].
  exact (proj1 (Hpages 0 (a4 [Byte.x01]) eq_refl)).
Defined.

(** C2, as stated, fails when the signatureInfo supplied is the empty
    string: the footer of the one-page sample is the footer without
    signature, not that footer followed by the two fields. *)
Lemma supplied_empty_signature_draws_no_fields :
  ∃ doc' p' options,
    sampleStamp onePage "UID-X" "DOC-Y" (Some "") world0
    = (Normal doc', afterClockRead world0) ∧
    pages doc' !! 0 = Some p' ∧
    contents p' =
      [Existing [Byte.x01];
       DrawnText "BeaverDoc - UID: UID-X | Token: DOC-Y | Page 1/1" options] ∧
    "BeaverDoc - UID: UID-X | Token: DOC-Y | Page 1/1"
    ≠ "BeaverDoc - UID: UID-X | Token: DOC-Y | Page 1/1" +:+ " | " +:+ ""
      +:+ " | Horodaté le " +:+ Stamper.timestampAt sampleClock sampleLocale world0.
Proof.
  eexists _, _, _. split; [evaluate|]. split; [evaluate|].
  split; [evaluate|]. lazy. discriminate.
Qed.

(** The three-page sample signed by Alice: the footer of page 2. *)
Lemma footer_with_signature_witness :
  ∃ doc',
    sampleStamp threePages "UID-X" "DOC-Y" (Some "Signed by Alice") world0
    = (Normal doc', afterClockRead world0) ∧
    ∃ p' text options, pages doc' !! 1 = Some p' ∧
      contents p' = [Existing [Byte.x02]; DrawnText text options] ∧
      text = "BeaverDoc - UID: UID-X | Token: DOC-Y | Page 2/3 | Signed by Alice | Horodaté le 03/11/2026 10:05:07".
Proof.
  destruct (footer_with_signature sampleLoad sampleStandardFont sampleSave
              sampleClock sampleLocale [Byte.x03] "UID-X" "DOC-Y"
              (Some "Signed by Alice") threePages sampleFont
              world0 eq_refl eq_refl (λ i _, sampleFont_renders _ _))
    as (doc' & Hrun & _ & Hpages).
  exists doc'. split; [exact Hrun|].
  destruct (Hpages 1 (a4 [Byte.x02]) eq_refl)
    as (p' & text & options & Hp' & Hcontents & _ & _ & Htext).
  exists p', text, options. split; [exact Hp'|]. split; [exact Hcontents|].
  exact (Htext eq_refl eq_refl eq_refl).
Defined.

(** The three-page sample: the footer of the narrow third page. *)
Lemma footer_placement_witness :
  ∃ doc',
    sampleStamp threePages "UID-X" "DOC-Y" None world0
    = (Normal doc', afterClockRead world0) ∧
    ∃ p' text options textWidth, pages doc' !! 2 = Some p' ∧
      contents p' = [Existing [Byte.x03]; DrawnText text options] ∧
      widthOfTextAtSize sampleFont text 6 = Normal textWidth ∧
      x options = ((100 - textWidth) / 2)%float ∧ y options = 10%float.
Proof.
  destruct (footer_placement sampleLoad sampleStandardFont sampleSave
              sampleClock sampleLocale [Byte.x03] "UID-X" "DOC-Y" None threePages
              sampleFont world0 eq_refl eq_refl (λ i _, sampleFont_renders _ _))
    as (doc' & Hrun & _ & Hpages).
  exists doc'. split; [exact Hrun|].
  destruct (Hpages 2 (ticket [Byte.x03]) eq_refl)
    as (p' & text & options & tw & Hp' & Hcontents & Hw & _ & Hx & Hy & _).
  exists p', text, options, tw. repeat split; assumption.
Defined.

(** On the narrow page of the sample the footer measures 144 units for a
    page 100 units wide, and starts 22 units left of the page. *)
Example narrow_page_negative_x :
  ∃ doc' p' text options,
    sampleStamp threePages "UID-X" "DOC-Y" None world0
    = (Normal doc', afterClockRead world0) ∧
    pages doc' !! 2 = Some p' ∧
    contents p' = [Existing [Byte.x03]; DrawnText text options] ∧
    widthOfTextAtSize sampleFont text 6 = Normal 144%float ∧
    x options = (-22)%float ∧ PrimFloat.ltb (x options) 0 = true.
Proof.
  eexists _, _, _, _. do 5 (split; [evaluate|]). evaluate.
Qed.


(** The three-page sample signed by Alice: one read of the clock. *)
Lemma footers_differ_only_in_page_number_witness :
  ∃ doc' w' before after,
    sampleStamp threePages "UID-X" "DOC-Y" (Some "Signed by Alice") world0
    = (Normal doc', w') ∧
    clockReads w' = 1 ∧
    after = "/3 | Signed by Alice | Horodaté le 03/11/2026 10:05:07" ∧
    ∀ i p, pages threePages !! i = Some p →
      ∃ p' options, pages doc' !! i = Some p' ∧
        contents p' = contents p
                      ++ [DrawnText (before +:+ pretty (i + 1) +:+ after) options].
Proof.
  destruct (footers_differ_only_in_page_number sampleLoad sampleStandardFont sampleSave
              sampleClock sampleLocale [Byte.x03] "UID-X" "DOC-Y"
              (Some "Signed by Alice") threePages sampleFont
              world0 eq_refl eq_refl (λ i _, sampleFont_renders _ _))
    as (doc' & w' & before & after & Hrun & _ & Hclock & Hpages & Hafter).
  exists doc', w', before, after. split; [exact Hrun|]. split; [exact Hclock|].
  split; [|exact Hpages]. apply (Hafter "Signed by Alice" eq_refl). discriminate.
Defined.

(** The one-page sample stamped twice. *)
Lemma stamping_accumulates_witness :
  ∃ doc2,
    sampleStamp onePageStamped "UID-X" "DOC-Y" None (afterClockRead world0)
    = (Normal doc2, afterClockRead (afterClockRead world0)) ∧
    pages doc2 ≠ pages onePageStamped.
Proof.
  destruct (stamping_accumulates sampleLoad sampleStandardFont sampleSave
              sampleClock sampleLocale "UID-X" "DOC-Y" None "UID-X" "DOC-Y" None
              onePage onePageStamped [Byte.x11] sampleFont world0 (afterClockRead world0)
              eq_refl eq_refl eq_refl eq_refl (λ i _, sampleFont_renders _ _))
    as (doc2 & Hrun & _ & _ & Hne).
  exists doc2. split; [exact Hrun|]. apply Hne. discriminate.
Defined.

(** The one-page sample after two stampings shows two footers. *)
Example two_footers_after_two_stampings :
  ∃ doc2 p2 options1 options2,
    sampleStamp onePageStamped "UID-X" "DOC-Y" None (afterClockRead world0)
    = (Normal doc2, afterClockRead (afterClockRead world0)) ∧
    pages doc2 !! 0 = Some p2 ∧
    contents p2 =
      [Existing [Byte.x01];
       DrawnText "BeaverDoc - UID: UID-X | Token: DOC-Y | Page 1/1" options1;
       DrawnText "BeaverDoc - UID: UID-X | Token: DOC-Y | Page 1/1" options2].
Proof.
  eexists _, _, _, _. split; [evaluate|]. split; evaluate.
Qed.

(** A buffer that is not a document: the generic error, the cause on the
    console, nothing returned. *)
Example malformed_input_fails :
  sampleRoutine [] "UID-X" "DOC-Y" None world0
  = (Throw (Error "Impossible de modifier le PDF pour ajouter l'UID et le token"),
     mkWorld 0 0 [consoleLine "Erreur lors de la modification du PDF:"
                    (Error "Failed to parse PDF document")]).
Proof. reflexivity. Qed.
End Samples.

End StamperFacts.

(** ** Properties of the identifier generators and of the upload route *)

Module RoutesFacts.
Import Js Stamper Routes StamperFacts.

(** *** Strings *)

Lemma allChars_app P (s t : string) :
  allChars P (s +:+ t) = allChars P s && allChars P t.
Proof.
  induction s as [|c s IH]; [done|]. rewrite app_cons. simpl.
  by rewrite IH, andb_assoc.
Qed.

Lemma allChars_impl (P Q : ascii → bool) (s : string) :
  (∀ c, P c = true → Q c = true) → allChars P s = true → allChars Q s = true.
Proof.
  intros HPQ. induction s as [|c s IH]; [done|]. simpl.
  intros [Hc Hs]%andb_true_iff. by rewrite (HPQ c Hc), IH.
Qed.

Lemma length_app_string (s t : string) :
  String.length (s +:+ t) = String.length s + String.length t.
Proof.
  induction s as [|c s IH]; [done|]. rewrite app_cons. simpl. by rewrite IH.
Qed.

Lemma removeAll_app c (s t : string) :
  removeAll c (s +:+ t) = removeAll c s +:+ removeAll c t.
Proof.
  induction s as [|a s IH]; [done|]. rewrite app_cons. simpl.
  destruct (Ascii.eqb a c); [done|]. by rewrite app_cons, IH.
Qed.

Lemma removeAll_absent c (s : string) :
  allChars (λ a, negb (Ascii.eqb a c)) s = true → removeAll c s = s.
Proof.
  induction s as [|a s IH]; [done|]. simpl.
  intros [Ha Hs]%andb_true_iff. apply negb_true_iff in Ha. rewrite Ha.
  by rewrite IH.
Qed.

Lemma split_nonempty c (s : string) : split c s ≠ [].
Proof.
  induction s as [|a s IH]; [done|]. simpl.
  destruct (Ascii.eqb a c); [done|]. by destruct (split c s).
Qed.

(** The first piece of a split is what precedes the first separator. *)
Lemma first_split c (pre rest : string) :
  allChars (λ a, negb (Ascii.eqb a c)) pre = true →
  first (split c (pre +:+ String c rest)) = Normal pre.
Proof.
  induction pre as [|a pre IH].
  - intros _. rewrite app_empty. simpl. by rewrite Ascii.eqb_refl.
  - simpl. intros [Ha Hpre]%andb_true_iff. apply negb_true_iff in Ha.
    rewrite Ha. specialize (IH Hpre).
    destruct (split c (pre +:+ String c rest)) as [|piece pieces]; [done|].
    simpl in *. by injection IH as ->.
Qed.

Lemma substring0_app n (s t : string) :
  String.length s = n → substring0 n (s +:+ t) = s.
Proof.
  unfold substring0. revert n. induction s as [|a s IH]; intros n <-.
  - rewrite app_empty. by destruct t.
  - rewrite app_cons. simpl. by rewrite IH.
Qed.

Lemma isDigit_isHexDigit c : isDigit c = true → isHexDigit c = true.
Proof. unfold isHexDigit. by intros ->. Qed.

Lemma isHexDigit_not c sep :
  isHexDigit sep = false → isHexDigit c = true → negb (Ascii.eqb c sep) = true.
Proof.
  intros Hsep Hc. apply negb_true_iff, Ascii.eqb_neq. intros ->. congruence.
Qed.

(** Hexadecimal strings contain none of the separators of the code. *)
Lemma hex_without sep (s : string) :
  isHexDigit sep = false → allChars isHexDigit s = true →
  allChars (λ a, negb (Ascii.eqb a sep)) s = true.
Proof. intros Hsep. apply allChars_impl. intros c. by apply isHexDigit_not. Qed.

Lemma digits_without sep (s : string) :
  isHexDigit sep = false → allChars isDigit s = true →
  allChars (λ a, negb (Ascii.eqb a sep)) s = true.
Proof.
  intros Hsep Hs. apply hex_without; [done|].
  revert Hs. apply allChars_impl, isDigit_isHexDigit.
Qed.

(** *** Date fields *)

Lemma padStart_below (w : nat) (bound n : N) :
  forallb (λ k, digitsOfWidth w (padStart w (N.of_nat k)))
    (seq 0 (N.to_nat bound)) = true →
  (n < bound)%N →
  String.length (padStart w n) = w ∧ allChars isDigit (padStart w n) = true.
Proof.
  intros Hall Hn. rewrite forallb_forall in Hall.
  specialize (Hall (N.to_nat n)). rewrite N2Nat.id in Hall.
  assert (digitsOfWidth w (padStart w n) = true) as H.
  { apply Hall, in_seq. lia. }
  apply andb_true_iff in H as [Hlen Hdigits]. by apply Nat.eqb_eq in Hlen.
Qed.

Lemma padStart_2 (n : N) :
  (n < 100)%N →
  String.length (padStart 2 n) = 2 ∧ allChars isDigit (padStart 2 n) = true.
Proof. intros Hn. apply (padStart_below 2 100); [by vm_compute|lia]. Qed.

Lemma padStart_4 (n : N) :
  (n ≤ 9999)%N →
  String.length (padStart 4 n) = 4 ∧ allChars isDigit (padStart 4 n) = true.
Proof. intros Hn. apply (padStart_below 4 10000); [by vm_compute|lia]. Qed.

(** The part of [toISOString] before the [T], without its dashes. *)
Lemma date_of_toISOString d :
  validDate d →
  ∃ isoDate, first (split "T" (toISOString d)) = Normal isoDate ∧
    removeAll "-" isoDate = dateStamp d ∧
    String.length (dateStamp d) = 8 ∧ allChars isDigit (dateStamp d) = true.
Proof.
  intros (Hy & Hm & Hd & _).
  destruct (padStart_4 (utcFullYear d) Hy) as [Hly Hdy].
  destruct (padStart_2 (utcMonth d) ltac:(lia)) as [Hlm Hdm].
  destruct (padStart_2 (utcDate d) ltac:(lia)) as [Hld Hdd].
  exists (padStart 4 (utcFullYear d) +:+ "-" +:+ padStart 2 (utcMonth d)
          +:+ "-" +:+ padStart 2 (utcDate d)).
  split; [|split; [|split]].
  - unfold toISOString. rewrite decide_True by done.
    rewrite <- first_split with (c := "T"%char) (rest :=
      padStart 2 (utcHours d) +:+ ":" +:+ padStart 2 (utcMinutes d) +:+ ":"
      +:+ padStart 2 (utcSeconds d) +:+ "." +:+ padStart 3 (utcMilliseconds d)
      +:+ "Z").
    + by rewrite !app_assoc'.
    + rewrite !allChars_app.
      by rewrite (digits_without "T" _ eq_refl Hdy),
        (digits_without "T" _ eq_refl Hdm), (digits_without "T" _ eq_refl Hdd).
  - rewrite !removeAll_app.
    by rewrite (removeAll_absent _ _ (digits_without "-" _ eq_refl Hdy)),
      (removeAll_absent _ _ (digits_without "-" _ eq_refl Hdm)),
      (removeAll_absent _ _ (digits_without "-" _ eq_refl Hdd)).
  - unfold dateStamp. rewrite !length_app_string. lia.
  - unfold dateStamp. by rewrite !allChars_app, Hdy, Hdm, Hdd.
Qed.

(** The part of [toTimeString] before the space, without its colons. *)
Lemma time_of_toTimeString d :
  validDate d →
  ∃ localTime, first (split " " (toTimeString d)) = Normal localTime ∧
    removeAll ":" localTime = timeStamp d ∧
    String.length (timeStamp d) = 6 ∧ allChars isDigit (timeStamp d) = true.
Proof.
  intros (_ & _ & _ & _ & _ & _ & _ & Hh & Hm & Hs).
  destruct (padStart_2 (localHours d) ltac:(lia)) as [Hlh Hdh].
  destruct (padStart_2 (localMinutes d) ltac:(lia)) as [Hlm Hdm].
  destruct (padStart_2 (localSeconds d) ltac:(lia)) as [Hls Hds].
  exists (padStart 2 (localHours d) +:+ ":" +:+ padStart 2 (localMinutes d)
          +:+ ":" +:+ padStart 2 (localSeconds d)).
  split; [|split; [|split]].
  - unfold toTimeString.
    rewrite <- first_split with (c := " "%char) (rest := zoneSuffix d).
    + by rewrite !app_assoc'.
    + rewrite !allChars_app.
      by rewrite (digits_without " " _ eq_refl Hdh),
        (digits_without " " _ eq_refl Hdm), (digits_without " " _ eq_refl Hds).
  - rewrite !removeAll_app.
    by rewrite (removeAll_absent _ _ (digits_without ":" _ eq_refl Hdh)),
      (removeAll_absent _ _ (digits_without ":" _ eq_refl Hdm)),
      (removeAll_absent _ _ (digits_without ":" _ eq_refl Hds)).
  - unfold timeStamp. rewrite !length_app_string. lia.
  - unfold timeStamp. by rewrite !allChars_app, Hdh, Hdm, Hds.
Qed.

(** *** UUIDs *)

Lemma hexRun_Some n (s h tail : string) :
  hexRun n s = Some (h, tail) →
  s = h +:+ tail ∧ String.length h = n ∧ allChars isHexDigit h = true.
Proof.
  revert s h tail. induction n as [|n IH]; intros s h tail; simpl.
  - by intros [= <- <-].
  - destruct s as [|c s]; [done|]. destruct (isHexDigit c) eqn:Hc; [|done].
    destruct (hexRun n s) as [[h' tail']|] eqn:Hrun; [|done].
    intros [= <- <-]. destruct (IH _ _ _ Hrun) as (-> & <- & Hh).
    simpl. by rewrite Hc, Hh.
Qed.

(** The 16 characters the generators keep of a UUID: its first three groups. *)
Lemma random_of_uuid uuid :
  isUuid uuid = true →
  ∃ random rest,
    removeAll "-" uuid = random +:+ rest ∧
    substring0 16 (removeAll "-" uuid) = random ∧
    String.length random = 16 ∧ allChars isHexDigit random = true.
Proof.
  unfold isUuid. intros H.
  destruct (hexRun 8 uuid) as [[a [|c1 s1]]|] eqn:Ha; try done.
  destruct (Ascii.eqb_spec c1 "-") as [->|]; [|by repeat case_match].
  destruct (hexRun 4 s1) as [[b [|c2 s2]]|] eqn:Hb; try done.
  destruct (Ascii.eqb_spec c2 "-") as [->|]; [|by repeat case_match].
  destruct (hexRun 4 s2) as [[c [|c3 s3]]|] eqn:Hc; try done.
  destruct (Ascii.eqb_spec c3 "-") as [->|]; [|by repeat case_match].
  destruct (hexRun 4 s3) as [[d [|c4 s4]]|] eqn:Hd; try done.
  destruct (Ascii.eqb_spec c4 "-") as [->|]; [|by repeat case_match].
  destruct (hexRun 12 s4) as [[e [|]]|] eqn:He; try done.
  apply hexRun_Some in Ha as (-> & Hla & Hha), Hb as (-> & Hlb & Hhb),
    Hc as (-> & Hlc & Hhc), Hd as (-> & Hld & Hhd), He as (-> & Hle & Hhe).
  assert (removeAll "-" (a +:+ String "-" (b +:+ String "-" (c +:+ String "-"
            (d +:+ String "-" (e +:+ "")))))
          = (a +:+ b +:+ c) +:+ (d +:+ e)) as Hremoved.
  { rewrite !removeAll_app. simpl. rewrite !removeAll_app. simpl.
    rewrite !removeAll_app. simpl. rewrite !removeAll_app. simpl.
    rewrite !removeAll_app. simpl.
    rewrite !removeAll_absent by (by apply hex_without).
    rewrite !app_assoc'. f_equal. f_equal. f_equal. f_equal.
    apply app_empty_r. }
  exists (a +:+ b +:+ c), (d +:+ e). rewrite Hremoved.
  assert (String.length (a +:+ b +:+ c) = 16) as Hlen.
  { rewrite !length_app_string. lia. }
  split; [done|]. split; [by apply substring0_app|]. split; [done|].
  by rewrite !allChars_app, Hha, Hhb, Hhc.
Qed.

(** *** The generators *)

Section GeneratorFacts.
Variable wallClock : nat → Date.
Variable randomSource : nat → string.

Abbreviation generateUID := (generateUID wallClock randomSource).
Abbreviation generateToken := (generateToken wallClock randomSource).

(** The generators never throw: a split has a first piece. *)
Lemma generateUID_runs w : ∃ uid, generateUID w = (Normal uid, afterGenerator w).
Proof.
  unfold Routes.generateUID, mbind, M_bind, newDate, randomUUID, lift; simpl.
  destruct (split "T" _) as [|isoDate ?] eqn:H1; [by apply split_nonempty in H1|].
  destruct (split " " _) as [|localTime ?] eqn:H2; [by apply split_nonempty in H2|].
  simpl. by eexists.
Qed.

Lemma generateToken_runs w : ∃ token, generateToken w = (Normal token, afterGenerator w).
Proof.
  unfold Routes.generateToken, mbind, M_bind, newDate, randomUUID, lift; simpl.
  destruct (split "T" _) as [|isoDate ?] eqn:H1; [by apply split_nonempty in H1|].
  destruct (split " " _) as [|localTime ?] eqn:H2; [by apply split_nonempty in H2|].
  simpl. by eexists.
Qed.

End GeneratorFacts.

(** *** The upload route *)

Section UploadFacts.
Variable wallClock : nat → Date.
Variable randomSource : nat → string.
Variable JSON_parse : string → completion JsValue.
Variable toFixed : float → nat → string.
Variable toBase64 : list Byte.byte → string.
Variables InsertDocument Document AuditLog Storage : Type.
Variable insertDocumentSchema_parse : DocumentInput → completion InsertDocument.
Variable id : Document → nat.
Variable createDocument : InsertDocument → Storage → completion Document * Storage.
Variable createAuditLog : AuditLogInput → Storage → completion AuditLog * Storage.

Abbreviation uploadHandler :=
  (uploadHandler wallClock randomSource JSON_parse toFixed toBase64
     InsertDocument Document AuditLog Storage
     insertDocumentSchema_parse id createDocument createAuditLog).

(** The handler on a request with a file, step by step: the first step
    that throws sends the handler to its catch block. *)
Lemma uploadHandler_with_file req reqFile w s uid token :
  file req = Some reqFile →
  generateUID wallClock randomSource w = (Normal uid, afterGenerator w) →
  generateToken wallClock randomSource (afterGenerator w)
  = (Normal token, afterGenerator (afterGenerator w)) →
  uploadHandler req (w, s) =
  let failed (e : JsError) (w' : World) (s' : Storage) :=
    (Normal (mkResponse 500 (MessageBody uploadError)),
     (mkWorld (clockReads w') (randomReads w')
        (console w' ++ [consoleLine "Upload error:" e]), s')) in
  let w2 := afterGenerator (afterGenerator w) in
  match (if truthy (options req) then JSON_parse (default "" (options req))
         else Normal defaultOptions) with
  | Throw e => failed e w s
  | Normal opts =>
    match getProperty opts "signAfterImport" with
    | Throw e => failed e w2 s
    | Normal flag =>
      match insertDocumentSchema_parse
              (mkDocumentInput (originalname reqFile) uid token
                 (toBase64 (buffer reqFile)) (mimetype reqFile)
                 (toFixed (size reqFile / 1024 / 1024)%float 2 +:+ " MB") 1 flag) with
      | Throw e => failed e w2 s
      | Normal validated =>
        match createDocument validated s with
        | (Throw e, s1) => failed e w2 s1
        | (Normal created, s1) =>
          match createAuditLog
                  (mkAuditLogInput (id created) 1 "create"
                     ("Document uploaded: " +:+ originalname reqFile)) s1 with
          | (Throw e, s2) => failed e w2 s2
          | (Normal _, s2) => (Normal (mkResponse 201 (DocumentBody created)), (w2, s2))
          end
        end
      end
    end
  end.
Proof.
  intros Hfile Huid Htoken.
  unfold Routes.uploadHandler, try_catch. rewrite Hfile.
  unfold mbind, M_bind, inWorld, inStorage, lift, mret, M_ret, console_error. simpl.
  destruct (truthy (options req)); simpl.
  - destruct (JSON_parse _) as [opts|e]; simpl; [|done].
    rewrite Huid; simpl. rewrite Htoken; simpl.
    destruct (getProperty opts _) as [flag|e]; simpl; [|done].
    destruct (insertDocumentSchema_parse _) as [validated|e]; simpl; [|done].
    destruct (createDocument validated s) as [[created|e] s1]; simpl; [|done].
    by destruct (createAuditLog _ s1) as [[log|e] s2].
  - rewrite Huid; simpl. rewrite Htoken; simpl.
    destruct (insertDocumentSchema_parse _) as [validated|e]; simpl; [|done].
    destruct (createDocument validated s) as [[created|e] s1]; simpl; [|done].
    by destruct (createAuditLog _ s1) as [[log|e] s2].
Qed.

(** The handler, on the request the middleware passes on, always answers;
    the status is 400 exactly when no file
    is attached; with a file, every failing step (the options JSON, the read
    of signAfterImport, the schema, the storing of the document, the storing
    of the audit entry) gives 500 with the fixed message, and when all
    succeed the answer is 201 with the created document, the store being the
    one left by the two storage calls. *)
Theorem upload_responses req st :
  ∃ resp st', uploadHandler req st = (Normal resp, st') ∧
    (status resp = 400 ↔ file req = None) ∧
    (status resp = 400 ∨ status resp = 500 ∨ status resp = 201) ∧
    (status resp = 500 →
     body resp = MessageBody "Erreur lors de l'importation du document") ∧
    ∀ reqFile, file req = Some reqFile →
      ∃ uid token,
        generateUID wallClock randomSource st.1 = (Normal uid, afterGenerator st.1) ∧
        generateToken wallClock randomSource (afterGenerator st.1)
        = (Normal token, afterGenerator (afterGenerator st.1)) ∧
        let parsed :=
          if truthy (options req) then JSON_parse (default "" (options req))
          else Normal defaultOptions in
        let document flag :=
          mkDocumentInput (originalname reqFile) uid token
            (toBase64 (buffer reqFile)) (mimetype reqFile)
            (toFixed (size reqFile / 1024 / 1024)%float 2 +:+ " MB") 1 flag in
        let entry created :=
          mkAuditLogInput (id created) 1 "create"
            ("Document uploaded: " +:+ originalname reqFile) in
        (∀ e, parsed = Throw e → status resp = 500) ∧
        ∀ opts, parsed = Normal opts →
          (∀ e, getProperty opts "signAfterImport" = Throw e → status resp = 500) ∧
          ∀ flag, getProperty opts "signAfterImport" = Normal flag →
            (∀ e, insertDocumentSchema_parse (document flag) = Throw e →
               status resp = 500) ∧
            ∀ validated, insertDocumentSchema_parse (document flag) = Normal validated →
              (∀ e s1, createDocument validated st.2 = (Throw e, s1) →
                 status resp = 500) ∧
              ∀ created s1, createDocument validated st.2 = (Normal created, s1) →
                (∀ e s2, createAuditLog (entry created) s1 = (Throw e, s2) →
                   status resp = 500) ∧
                ∀ log s2, createAuditLog (entry created) s1 = (Normal log, s2) →
                  status resp = 201 ∧ body resp = DocumentBody created ∧ st'.2 = s2.
Proof.
  destruct st as [w s]. destruct (file req) as [reqFile|] eqn:Hfile.
  2: { eexists _, _. split.
       { unfold Routes.uploadHandler, try_catch. by rewrite Hfile. }
       simpl. repeat split; try done; auto. }
  destruct (generateUID_runs wallClock randomSource w) as [uid Huid].
  destruct (generateToken_runs wallClock randomSource (afterGenerator w))
    as [token Htoken].
  rewrite (uploadHandler_with_file req reqFile w s uid token Hfile Huid Htoken).
  simpl.
  destruct (if truthy (options req) then _ else _) as [opts|e0] eqn:Hparsed;
    [destruct (getProperty opts "signAfterImport") as [flag|e0] eqn:Hflag;
     [destruct (insertDocumentSchema_parse _) as [validated|e0] eqn:Hvalid;
      [destruct (createDocument validated s) as [[created|e0] s1] eqn:Hcreate;
       [destruct (createAuditLog _ s1) as [[log|e0] s2] eqn:Hlog|]|]|]|].
  all: eexists _, _; (split; [done|]); simpl.
  all: split; [split; intros; simplify_eq|].
  all: split; [auto|].
  all: split; [done|].
  all: intros ? [= <-]; exists uid, token; split; [done|]; split; [done|].
  all: repeat (first [split | intro]); simplify_eq; congruence.
Qed.
End UploadFacts.

(** *** The generators and the handler on sample requests *)

Section RouteSamples.
Import Sample.

Ltac evaluate := lazy; reflexivity.

Example sample_uid :
  Routes.generateUID sampleClock sampleUuid world0
  = (Normal "UID-20261103-100507-USR0042-CPY7890-3f2a9c1e7b4d4e8a",
     afterGenerator world0).
Proof. evaluate. Qed.

Example sample_token :
  Routes.generateToken sampleClock sampleUuid world0
  = (Normal "DOC-20261103-100507-3f2a9c1e7b4d4e8a", afterGenerator world0).
Proof. evaluate. Qed.

Lemma sampleDate_valid : validDate sampleDate.
Proof. unfold validDate, sampleDate; simpl. lia. Qed.


Example upload_without_file :
  sampleUpload (mkRequest None (Some "{}")) (world0, ([], []))
  = (Normal (mkResponse 400 (MessageBody "Aucun fichier n'a été téléchargé")),
     (world0, ([], []))).
Proof. evaluate. Qed.

Example upload_with_invalid_options :
  ∃ st', sampleUpload (mkRequest (Some sampleFile) (Some "{oops")) (world0, ([], []))
         = (Normal (mkResponse 500
                      (MessageBody "Erreur lors de l'importation du document")), st') ∧
    st'.2 = ([], []).
Proof. eexists. split; evaluate. Qed.

Example upload_with_null_options :
  ∃ st', sampleUpload (mkRequest (Some sampleFile) (Some "null")) (world0, ([], []))
         = (Normal (mkResponse 500
                      (MessageBody "Erreur lors de l'importation du document")), st') ∧
    st'.2 = ([], []).
Proof. eexists. split; evaluate. Qed.

Example upload_succeeds :
  ∃ created st',
    sampleUpload (mkRequest (Some sampleFile) None) (world0, ([], []))
    = (Normal (mkResponse 201 (DocumentBody created)), st') ∧
    created.1 = 1 ∧
    uid created.2 = "UID-20261103-100507-USR0042-CPY7890-3f2a9c1e7b4d4e8a" ∧
    isSigned created.2 = JBool false ∧
    st'.2 = ([created],
             [mkAuditLogInput 1 1 "create" "Document uploaded: contrat.pdf"]).
Proof. eexists _, _. do 4 (split; [evaluate|]). evaluate. Qed.
End RouteSamples.

End RoutesFacts.

(** ** Further properties of the stamper and of the generators *)

Module MoreStamperFacts.
Import Js Stamper Routes StamperFacts RoutesFacts.

Lemma app_inv_tail_string (a b c : string) : a +:+ c = b +:+ c → a = b.
Proof.
  revert b. induction a as [|x a IH]; intros [|y b] H.
  - done.
  - apply (f_equal String.length) in H. rewrite app_empty, app_cons in H.
    simpl in H. rewrite length_app_string in H. lia.
  - apply (f_equal String.length) in H. rewrite app_empty, app_cons in H.
    simpl in H. rewrite length_app_string in H. lia.
  - rewrite !app_cons in H. injection H as -> H. by rewrite (IH b H).
Qed.

(** X1: in one invocation two different pages never get the same footer
    text, whatever the uid, the token and the signature. *)
Theorem footers_identify_pages uid token signatureInfo timestamp n i j :
  i ≠ j →
  footerText uid token signatureInfo timestamp i n
  ≠ footerText uid token signatureInfo timestamp j n.
Proof.
  destruct (footerText_around uid token signatureInfo timestamp n)
    as (before & after & Htext & _).
  rewrite !Htext. intros Hij H. apply String.app_inj in H.
  apply app_inv_tail_string in H. apply pretty_nat_inj in H. lia.
Qed.

Section FirstFailure.
Variables (uid token : string) (signatureInfo : option string).
Variables (font : PDFFont) (fontSize : float) (timestamp : string).

(** The loop throws the error of the first page whose stamping throws. *)
Lemma stampLoop_first_failure fuel i ps k p e :
  i ≤ k → length ps ≤ fuel + i →
  ps !! k = Some p →
  (∀ j, i ≤ j < k →
     renders font fontSize
       (footerText uid token signatureInfo timestamp j (length ps))) →
  stampPage uid token signatureInfo font fontSize timestamp k (length ps) p = Throw e →
  stampLoop uid token signatureInfo font fontSize timestamp fuel i ps = Throw e.
Proof.
  revert i ps. induction fuel as [|fuel IH]; intros i ps Hik Hfuel Hk Hbefore Hthrow.
  - apply lookup_lt_Some in Hk. lia.
  - simpl. destruct (ps !! i) as [page|] eqn:Hi.
    2: { apply lookup_ge_None in Hi. apply lookup_lt_Some in Hk. lia. }
    destruct (decide (i = k)) as [->|Hne].
    + assert (page = p) as -> by congruence. by rewrite Hthrow.
    + destruct (stampPage_renders uid token signatureInfo font fontSize timestamp
                  i (length ps) page) as [page' Hpage'].
      { apply Hbefore. lia. }
      rewrite Hpage'. simpl. apply IH.
      * lia.
      * rewrite length_insert. lia.
      * by rewrite list_lookup_insert_ne.
      * rewrite length_insert. intros j Hj. apply Hbefore. lia.
      * by rewrite length_insert.
Qed.
End FirstFailure.

Section Routine.
Variable load : Buffer → completion PDFDocument.
Variable standardFont : StandardFonts → completion PDFFont.
Variable save : PDFDocument → completion Buffer.
Variable wallClock : nat → Date.
Variable toLocaleString : Date → string → string.

(** X2: when the pages before page k+1 can be rendered and the measuring
    or the encoding of the footer of page k+1 throws, the routine throws the
    generic error, has read the clock once, and has written that page's
    error, and nothing else, to the console. *)
Theorem first_unrenderable_page_is_reported
    pdfBuffer uid token signatureInfo doc font w k p cause :
  let text i := footerText uid token signatureInfo
                  (timestampAt wallClock toLocaleString w) i (length (pages doc)) in
  load pdfBuffer = Normal doc →
  standardFont Helvetica = Normal font →
  pages doc !! k = Some p →
  (∀ j, j < k → renders font 6 (text j)) →
  (widthOfTextAtSize font (text k) 6 = Throw cause ∨
   ∃ textWidth, widthOfTextAtSize font (text k) 6 = Normal textWidth ∧
     encodeText font (text k) = Throw cause) →
  Stamper.addUidAndTokenToPdf load standardFont save wallClock toLocaleString
    pdfBuffer uid token signatureInfo w
  = (Throw (Error "Impossible de modifier le PDF pour ajouter l'UID et le token"),
     mkWorld (S (clockReads w)) (randomReads w)
       (console w ++ [consoleLine "Erreur lors de la modification du PDF:" cause])).
Proof.
  intros text Hload Hfont Hk Hbefore Hcause.
  assert (stampPage uid token signatureInfo font 6
            (timestampAt wallClock toLocaleString w) k (length (pages doc)) p
          = Throw cause) as Hthrow.
  { unfold stampPage, drawText. fold (text k).
    destruct Hcause as [->|(tw & -> & He)]; [done|]. simpl. by rewrite He. }
  pose proof (stampLoop_first_failure uid token signatureInfo font 6
                (timestampAt wallClock toLocaleString w)
                (length (pages doc)) 0 (pages doc) k p cause
                ltac:(lia) ltac:(lia) Hk
                (λ j Hj, Hbefore j (proj2 Hj)) Hthrow) as Hloop.
  rewrite addUidAndTokenToPdf_unfold, Hload. simpl.
  unfold Stamper.stampDocument, embedFont, mbind, M_bind, lift, newDate. simpl.
  rewrite Hfont. simpl. unfold timestampAt in Hloop. by rewrite Hloop.
Qed.
End Routine.

Section MoreGenerators.
Variable wallClock : nat → Date.
Variable randomSource : nat → string.

(** X3: whatever the clock and the random source return, the generators
    return a string; the UID starts with "UID-" and carries the fixed user
    and company segment, the token starts with "DOC-", so the two never
    coincide. *)
Theorem generators_always_answer w :
  ∃ uid token date time random,
    generateUID wallClock randomSource w
    = (Normal uid, afterGenerator w) ∧
    generateToken wallClock randomSource w
    = (Normal token, afterGenerator w) ∧
    uid = "UID-" +:+ date +:+ "-" +:+ time +:+ "-USR0042-CPY7890-" +:+ random ∧
    token = "DOC-" +:+ date +:+ "-" +:+ time +:+ "-" +:+ random ∧
    String.length random ≤ 16 ∧
    uid ≠ token.
Proof.
  unfold generateUID, generateToken, mbind, M_bind, newDate, randomUUID, lift; simpl.
  destruct (split "T" _) as [|isoDate ?] eqn:H1; [by apply split_nonempty in H1|].
  destruct (split " " _) as [|localTime ?] eqn:H2; [by apply split_nonempty in H2|].
  simpl. eexists _, _, _, _, _. do 4 (split; [reflexivity|]). split; [|done].
  unfold substring0. generalize (removeAll "-" (randomSource (randomReads w))).
  generalize 16. intros n s. revert s. induction n as [|n IH]; intros [|c s]; simpl;
    try lia. specialize (IH s). lia.
Qed.

(** X4: at a valid instant and with a well-formed UUID the UID has 52
    characters and the token 36. *)
Theorem identifiers_have_fixed_length w :
  validDate (wallClock (clockReads w)) →
  isUuid (randomSource (randomReads w)) = true →
  ∃ uid token,
    generateUID wallClock randomSource w = (Normal uid, afterGenerator w) ∧
    generateToken wallClock randomSource w = (Normal token, afterGenerator w) ∧
    String.length uid = 52 ∧ String.length token = 36.
Proof.
  intros Hnow Huuid.
  destruct (date_of_toISOString _ Hnow) as (isoDate & Hiso & Hdate & Hld & _).
  destruct (time_of_toTimeString _ Hnow) as (localTime & Hlocal & Htime & Hlt & _).
  destruct (random_of_uuid _ Huuid) as (random & rest & _ & Hrandom & Hlr & _).
  unfold generateUID, generateToken, mbind, M_bind, newDate, randomUUID, lift; simpl.
  rewrite Hiso, Hlocal; simpl. rewrite Hdate, Htime, Hrandom.
  eexists _, _. do 2 (split; [reflexivity|]).
  rewrite !length_app_string, Hld, Hlt, Hlr. done.
Qed.
End MoreGenerators.

End MoreStamperFacts.

(** ** Further properties of the upload route *)

Module MoreUploadFacts.
Import Js Stamper Routes RouteVocabulary StamperFacts RoutesFacts.

Section MoreGeneratorLemmas.
Variable wallClock : nat → Date.
Variable randomSource : nat → string.

Abbreviation uidAt := (uidAt wallClock randomSource).
Abbreviation tokenAt := (tokenAt wallClock randomSource).

Lemma generateUID_valid w :
  validDate (wallClock (clockReads w)) →
  generateUID wallClock randomSource w
  = (Normal (uidAt (clockReads w) (randomReads w)), afterGenerator w).
Proof.
  intros Hnow.
  destruct (date_of_toISOString _ Hnow) as (isoDate & Hiso & Hdate & _).
  destruct (time_of_toTimeString _ Hnow) as (localTime & Hlocal & Htime & _).
  unfold generateUID, mbind, M_bind, newDate, randomUUID, lift; simpl.
  rewrite Hiso, Hlocal; simpl. by rewrite Hdate, Htime.
Qed.

Lemma generateToken_valid w :
  validDate (wallClock (clockReads w)) →
  generateToken wallClock randomSource w
  = (Normal (tokenAt (clockReads w) (randomReads w)), afterGenerator w).
Proof.
  intros Hnow.
  destruct (date_of_toISOString _ Hnow) as (isoDate & Hiso & Hdate & _).
  destruct (time_of_toTimeString _ Hnow) as (localTime & Hlocal & Htime & _).
  unfold generateToken, mbind, M_bind, newDate, randomUUID, lift; simpl.
  rewrite Hiso, Hlocal; simpl. by rewrite Hdate, Htime.
Qed.
End MoreGeneratorLemmas.

Section MoreUpload.
Variable wallClock : nat → Date.
Variable randomSource : nat → string.
Variable JSON_parse : string → completion JsValue.
Variable toFixed : float → nat → string.
Variable toBase64 : list Byte.byte → string.
Variables InsertDocument Document AuditLog Storage : Type.
Variable insertDocumentSchema_parse : DocumentInput → completion InsertDocument.
Variable id : Document → nat.
Variable createDocument : InsertDocument → Storage → completion Document * Storage.
Variable createAuditLog : AuditLogInput → Storage → completion AuditLog * Storage.

Abbreviation uploadHandler :=
  (uploadHandler wallClock randomSource JSON_parse toFixed toBase64
     InsertDocument Document AuditLog Storage
     insertDocumentSchema_parse id createDocument createAuditLog).
Abbreviation parsedOptions := (parsedOptions JSON_parse).
Abbreviation document reqFile uid token flag :=
  (mkDocumentInput (originalname reqFile) uid token
     (toBase64 (buffer reqFile)) (mimetype reqFile)
     (toFixed (PrimFloat.div (PrimFloat.div (size reqFile) 1024%float) 1024%float) 2
      +:+ " MB") 1 flag).

(** The handler on a request with a file, with the identifiers named. *)
Lemma uploadHandler_steps req reqFile w s :
  file req = Some reqFile →
  ∃ uid token,
    generateUID wallClock randomSource w = (Normal uid, afterGenerator w) ∧
    generateToken wallClock randomSource (afterGenerator w)
    = (Normal token, afterGenerator (afterGenerator w)) ∧
    uploadHandler req (w, s) =
    let failed (e : JsError) (w' : World) (s' : Storage) :=
      (Normal (mkResponse 500 (MessageBody uploadError)), (afterUploadError e w', s')) in
    let w2 := afterGenerator (afterGenerator w) in
    match parsedOptions req with
    | Throw e => failed e w s
    | Normal opts =>
      match getProperty opts "signAfterImport" with
      | Throw e => failed e w2 s
      | Normal flag =>
        match insertDocumentSchema_parse (document reqFile uid token flag) with
        | Throw e => failed e w2 s
        | Normal validated =>
          match createDocument validated s with
          | (Throw e, s1) => failed e w2 s1
          | (Normal created, s1) =>
            match createAuditLog
                    (mkAuditLogInput (id created) 1 "create"
                       ("Document uploaded: " +:+ originalname reqFile)) s1 with
            | (Throw e, s2) => failed e w2 s2
            | (Normal _, s2) =>
              (Normal (mkResponse 201 (DocumentBody created)), (w2, s2))
            end
          end
        end
      end
    end.
Proof.
  intros Hfile.
  destruct (generateUID_runs wallClock randomSource w) as [uid Huid].
  destruct (generateToken_runs wallClock randomSource (afterGenerator w))
    as [token Htoken].
  exists uid, token. split; [done|]. split; [done|].
  by rewrite (uploadHandler_with_file _ _ _ _ _ _ _ _ _ _ _ _ _ req reqFile w s
                uid token Hfile Huid Htoken).
Qed.

(** X5: if the store after the handler is not the store before it, a file
    was attached, the options were read and the schema accepted the document
    the handler built, with the uid and the token the generators returned
    at the handler's reads of the clock and of the random source: a request
    without a file, unreadable options and a rejected document leave the
    store as it was. *)
Theorem store_changes_only_after_validation req w s :
  (uploadHandler req (w, s)).2.2 ≠ s →
  ∃ reqFile opts flag uid token validated,
    file req = Some reqFile ∧
    parsedOptions req = Normal opts ∧
    getProperty opts "signAfterImport" = Normal flag ∧
    generateUID wallClock randomSource w = (Normal uid, afterGenerator w) ∧
    generateToken wallClock randomSource (afterGenerator w)
    = (Normal token, afterGenerator (afterGenerator w)) ∧
    insertDocumentSchema_parse (document reqFile uid token flag) = Normal validated.
Proof.
  destruct (file req) as [reqFile|] eqn:Hfile.
  2: { unfold Routes.uploadHandler, try_catch. rewrite Hfile. simpl.
       intros H. by destruct H. }
  destruct (uploadHandler_steps req reqFile w s Hfile) as (uid & token & Hu & Ht & ->).
  simpl. destruct (parsedOptions req) as [opts|e] eqn:Hopts;
    [|intros H; by destruct H].
  destruct (getProperty opts "signAfterImport") as [flag|e] eqn:Hflag;
    [|intros H; by destruct H].
  destruct (insertDocumentSchema_parse _) as [validated|e] eqn:Hvalid;
    [|intros H; by destruct H].
  intros _. by exists reqFile, opts, flag, uid, token, validated.
Qed.

(** X6: the handler does not undo the storing of the document when the
    audit entry cannot be stored: it answers 500 and leaves the store as the
    two storage calls left it, having logged the error of the second. *)
Theorem upload_is_not_atomic req reqFile w s :
  file req = Some reqFile →
  ∃ uid token,
    generateUID wallClock randomSource w = (Normal uid, afterGenerator w) ∧
    generateToken wallClock randomSource (afterGenerator w)
    = (Normal token, afterGenerator (afterGenerator w)) ∧
    ∀ opts flag validated created s1 e s2,
      parsedOptions req = Normal opts →
      getProperty opts "signAfterImport" = Normal flag →
      insertDocumentSchema_parse (document reqFile uid token flag) = Normal validated →
      createDocument validated s = (Normal created, s1) →
      createAuditLog
        (mkAuditLogInput (id created) 1 "create"
           ("Document uploaded: " +:+ originalname reqFile)) s1 = (Throw e, s2) →
      uploadHandler req (w, s)
      = (Normal (mkResponse 500 (MessageBody "Erreur lors de l'importation du document")),
         (afterUploadError e (afterGenerator (afterGenerator w)), s2)).
Proof.
  intros Hfile.
  destruct (uploadHandler_steps req reqFile w s Hfile) as (uid & token & Hu & Ht & ->).
  exists uid, token. split; [done|]. split; [done|].
  intros opts flag validated created s1 e s2 -> -> -> -> ->. done.
Qed.

(** X7: the handler reads nothing of the options but signAfterImport: two
    requests with the same file whose options agree on that property get the
    same answer and leave the same state, whatever generateNewUid and
    addToken say. *)
Theorem only_signAfterImport_is_read req1 req2 reqFile opts1 opts2 st :
  file req1 = Some reqFile →
  file req2 = Some reqFile →
  parsedOptions req1 = Normal opts1 →
  parsedOptions req2 = Normal opts2 →
  getProperty opts1 "signAfterImport" = getProperty opts2 "signAfterImport" →
  uploadHandler req1 st = uploadHandler req2 st.
Proof.
  intros Hfile1 Hfile2 Hopts1 Hopts2 Hflag. destruct st as [w s].
  destruct (uploadHandler_steps req1 reqFile w s Hfile1) as (uid & token & Hu & Ht & ->).
  destruct (uploadHandler_steps req2 reqFile w s Hfile2) as (uid' & token' & Hu' & Ht' & ->).
  assert (uid' = uid) as -> by congruence.
  assert (token' = token) as -> by congruence.
  simpl. by rewrite Hopts1, Hopts2, Hflag.
Qed.

(** X8: when the two instants read are valid and the handler answers 201,
    the schema has accepted a document whose uid is the UID built from the
    first reads of the clock and of the random source and whose token is
    the token built from the next reads. *)
Theorem uploaded_document_has_fresh_identifiers req reqFile w s resp st' :
  file req = Some reqFile →
  validDate (wallClock (clockReads w)) →
  validDate (wallClock (S (clockReads w))) →
  uploadHandler req (w, s) = (Normal resp, st') →
  status resp = 201 →
  ∃ flag validated,
    insertDocumentSchema_parse
      (document reqFile
         (uidAt wallClock randomSource (clockReads w) (randomReads w))
         (tokenAt wallClock randomSource (S (clockReads w)) (S (randomReads w)))
         flag)
    = Normal validated.
Proof.
  intros Hfile Hnow1 Hnow2.
  destruct (uploadHandler_steps req reqFile w s Hfile) as (uid & token & Hu & Ht & ->).
  rewrite (generateUID_valid wallClock randomSource w Hnow1) in Hu.
  rewrite (generateToken_valid wallClock randomSource (afterGenerator w) Hnow2) in Ht.
  injection Hu as <-. injection Ht as <-. simpl.
  destruct (parsedOptions req) as [opts|e]; [|by intros [= <- <-]].
  destruct (getProperty opts "signAfterImport") as [flag|e]; [|by intros [= <- <-]].
  destruct (insertDocumentSchema_parse _) as [validated|e] eqn:Hvalid;
    [|by intros [= <- <-]].
  intros _ _. by exists flag, validated.
Qed.
End MoreUpload.

End MoreUploadFacts.

(** ** Properties of the sign and share routes and of the page header *)

Module HandlerFacts.
Import Js Routes Handlers StamperFacts RoutesFacts.

Section SignFacts.
Variable randomSource : nat → string.
Variable parseInt : string → float.
Variable toUpperCase : string → string.
Variables Document AuditLog Storage : Type.
Variable getDocument : float → Storage → completion (option Document) * Storage.
Variable updateDocument :
  float → SignedDocument Document → Storage → completion (option Document) * Storage.
Variable createAuditLog : AuditRecord → Storage → completion AuditLog * Storage.

Abbreviation signHandler :=
  (signHandler randomSource parseInt toUpperCase Document AuditLog Storage
     getDocument updateDocument createAuditLog).

(** X9: the sign handler always answers, with 200, 404 or 500; it answers
    404 exactly when the store has no document under the id, and then has
    drawn no UUID, written nothing to the console and left the store as the
    lookup left it. *)
Theorem sign_of_a_missing_document id w s :
  ∃ reply w' s',
    signHandler id (w, s) = (Normal reply, (w', s')) ∧
    (code reply = 200 ∨ code reply = 404 ∨ code reply = 500) ∧
    (code reply = 404 ↔ ∃ s1, getDocument (parseInt id) s = (Normal None, s1)) ∧
    (code reply = 404 →
     payload reply = Message "Document non trouvé" ∧ w' = w ∧
     getDocument (parseInt id) s = (Normal None, s')) ∧
    (code reply = 500 →
     payload reply = Message "Erreur lors de la signature du document").
Proof.
  unfold Handlers.signHandler, try_catch, mbind, M_bind, inStorage, inWorld,
    randomUUID, mret, M_ret. simpl.
  destruct (getDocument (parseInt id) s) as [[[document|]|e] s1] eqn:Hget; simpl.
  - destruct (updateDocument _ _ s1) as [[updated|e] s2]; simpl.
    + destruct (createAuditLog _ s2) as [[log|e] s3]; simpl.
      * eexists _, _, _. split; [done|]. simpl. split; [by left|].
        split; [split; [done|by intros [? [=]]]|]. split; done.
      * eexists _, _, _. split; [done|]. simpl. split; [by right; right|].
        split; [split; [done|by intros [? [=]]]|]. split; done.
    + eexists _, _, _. split; [done|]. simpl. split; [by right; right|].
      split; [split; [done|by intros [? [=]]]|]. split; done.
  - eexists _, _, _. split; [done|]. simpl. split; [by right; left|].
    split; [split; [by exists s1|done]|]. split; done.
  - eexists _, _, _. split; [done|]. simpl. split; [by right; right|].
    split; [split; [done|by intros [? [=]]]|]. split; done.
Qed.

(** X10: the certificate named in the audit entry of a signature is always
    "DIGITAL_": the first eight characters of the signature data are those
    of its fixed prefix, not of the UUID. The document stays signed when the
    audit entry cannot be stored, the answer then being 500. *)
Theorem signature_certificate_label id w s document s1 updated s2 :
  toUpperCase "digital_" = "DIGITAL_" →
  getDocument (parseInt id) s = (Normal (Some document), s1) →
  updateDocument (parseInt id)
    (mkSigned document true ("digital_signature_" +:+ randomSource (randomReads w))) s1
  = (Normal updated, s2) →
  signHandler id (w, s) =
  let w' := mkWorld (clockReads w) (S (randomReads w)) (console w) in
  match createAuditLog
          (mkAuditRecord (parseInt id) 1 "sign"
             "Document signed with certificate #DIGITAL_") s2 with
  | (Normal _, s3) => (Normal (mkReply 200 (Stored updated)), (w', s3))
  | (Throw _, s3) =>
    (Normal (mkReply 500 (Message "Erreur lors de la signature du document")), (w', s3))
  end.
Proof.
  intros Hupper Hget Hupdate.
  unfold Handlers.signHandler, try_catch, mbind, M_bind, inStorage, inWorld,
    randomUUID, mret, M_ret. simpl.
  rewrite Hget. simpl. rewrite Hupdate. simpl.
  change (substring0 8 ("digital_signature_" +:+ randomSource (randomReads w)))
    with "digital_". rewrite Hupper.
  by destruct (createAuditLog _ s2) as [[log|e] s3].
Qed.
End SignFacts.

Section ShareFacts.
Variable mathRandom : nat → float.
Variable floor : float → float.
Variable parseInt : string → float.
Variable numberToString : float → string.
Variables ValidShare Share AuditLog Storage : Type.
Variable insertDocumentShareSchema_parse : ShareData → completion ValidShare.
Variable createDocumentShare : ValidShare → Storage → completion Share * Storage.
Variable createAuditLog : AuditRecord → Storage → completion AuditLog * Storage.

Abbreviation shareHandler :=
  (shareHandler mathRandom floor parseInt numberToString
     ValidShare Share AuditLog Storage
     insertDocumentShareSchema_parse createDocumentShare createAuditLog).

(** The permission given to the schema is never a falsy value. *)
Lemma orElse_read_truthy requested : truthyValue (orElse requested (JString "read")) = true.
Proof. unfold orElse. by destruct (truthyValue requested) eqn:H. Qed.

End ShareFacts.

(** *** The page header *)

Import Header.

Lemma split_piece c (pre rest : string) :
  allChars (λ a, negb (Ascii.eqb a c)) pre = true →
  split c (pre +:+ String c rest) = pre :: split c rest.
Proof.
  induction pre as [|a pre IH].
  - intros _. rewrite app_empty. simpl. by rewrite Ascii.eqb_refl.
  - simpl. intros [Ha Hpre]%andb_true_iff. apply negb_true_iff in Ha.
    rewrite Ha, (IH Hpre). done.
Qed.

Lemma split_whole c (s : string) :
  allChars (λ a, negb (Ascii.eqb a c)) s = true → split c s = [s].
Proof.
  induction s as [|a s IH]; [done|]. simpl.
  intros [Ha Hs]%andb_true_iff. apply negb_true_iff in Ha.
  by rewrite Ha, (IH Hs).
Qed.

(** X12: on a location "/document/<id>" or "/document/<id>/...", with an id
    free of slashes, the header is in document view and takes <id> from the
    location. With a non-empty id the download goes to
    "/api/documents/<id>/download" and the signature is requested by POST at
    "/api/documents/<id>/sign"; with an empty id the download does nothing
    and the signature request throws "ID de document manquant". *)
Theorem header_reads_the_document_id id tail :
  allChars (λ a, negb (Ascii.eqb a "/")) id = true →
  tail = "" ∨ (∃ more, tail = String "/" more) →
  let location := "/document/" +:+ id +:+ tail in
  isDocumentView location = true ∧
  documentIdOf location = Some id ∧
  handleDownloadDocument location
  = (if decide (id = "") then None
     else Some ("/api/documents/" +:+ id +:+ "/download")) ∧
  signDocument_mutationFn location
  = (if decide (id = "") then Throw (Error "ID de document manquant")
     else Normal ("POST", "/api/documents/" +:+ id +:+ "/sign")).
Proof.
  intros Hid Htail location.
  assert (documentIdOf location = Some id) as Hdoc.
  { unfold documentIdOf, location.
    change ("/document/" +:+ id +:+ tail)
      with ("" +:+ String "/" ("document" +:+ String "/" (id +:+ tail))).
    rewrite split_piece by done. rewrite split_piece by done. simpl.
    destruct Htail as [->|[more ->]].
    - by rewrite app_empty_r, split_whole.
    - by rewrite split_piece. }
  split.
  { change (String.prefix "" (id +:+ tail) = true). by destruct (id +:+ tail). }
  split; [done|].
  unfold handleDownloadDocument, signDocument_mutationFn. rewrite Hdoc.
  destruct id as [|c id]; simpl; by rewrite ?decide_True, ?decide_False by done.
Qed.

End HandlerFacts.

(** ** The further properties on sample inputs *)

Module MoreWitnesses.
Import Js Stamper Routes Handlers Header RouteVocabulary Sample MoreSamples.
Import StamperFacts RoutesFacts MoreStamperFacts MoreUploadFacts HandlerFacts.

Ltac evaluate := lazy; reflexivity.

(** Pages 1 and 2 of a three-page document. *)
Lemma footers_identify_pages_witness :
  footerText "UID-X" "DOC-Y" None "" 0 3 ≠ footerText "UID-X" "DOC-Y" None "" 1 3.
Proof. apply (footers_identify_pages "UID-X" "DOC-Y" None "" 3 0 1). discriminate. Defined.

(** The three-page sample with a font that cannot encode the digit 2: the
    footer of page 2 stops the routine. *)
Lemma first_unrenderable_page_is_reported_witness :
  Stamper.addUidAndTokenToPdf sampleLoad (λ _, Normal pickyFont) sampleSave
    sampleClock sampleLocale [Byte.x03] "UID-X" "DOC-Y" None world0
  = (Throw (Error "Impossible de modifier le PDF pour ajouter l'UID et le token"),
     mkWorld 1 0 [consoleLine "Erreur lors de la modification du PDF:"
                    (Error "WinAnsi cannot encode")]).
Proof.
  apply (first_unrenderable_page_is_reported sampleLoad (λ _, Normal pickyFont)
           sampleSave sampleClock sampleLocale [Byte.x03] "UID-X" "DOC-Y" None
           threePages pickyFont world0 1 (a4 [Byte.x02])
           (Error "WinAnsi cannot encode") eq_refl eq_refl eq_refl).
  - intros j Hj. destruct j as [|j]; [|exfalso; lia].
    split; eexists; evaluate.
  - left. evaluate.
Defined.

Lemma identifiers_have_fixed_length_witness :
  ∃ uid token,
    generateUID sampleClock sampleUuid world0 = (Normal uid, afterGenerator world0) ∧
    generateToken sampleClock sampleUuid world0 = (Normal token, afterGenerator world0) ∧
    String.length uid = 52 ∧ String.length token = 36.
Proof.
  exact (identifiers_have_fixed_length sampleClock sampleUuid world0
           sampleDate_valid eq_refl).
Defined.

(** The successful sample upload changes the store. *)
Lemma store_changes_only_after_validation_witness :
  ∃ reqFile opts flag uid token validated,
    file successfulRequest = Some reqFile ∧
    parsedOptions sampleJSON successfulRequest = Normal opts ∧
    getProperty opts "signAfterImport" = Normal flag ∧
    generateUID sampleClock sampleUuid world0 = (Normal uid, afterGenerator world0) ∧
    generateToken sampleClock sampleUuid (afterGenerator world0)
    = (Normal token, afterGenerator (afterGenerator world0)) ∧
    sampleSchema
      (mkDocumentInput (originalname reqFile) uid token
         (sampleBase64 (buffer reqFile)) (mimetype reqFile)
         (sampleToFixed (size reqFile / 1024 / 1024)%float 2 +:+ " MB") 1 flag)
    = Normal validated.
Proof.
  apply (store_changes_only_after_validation sampleClock sampleUuid sampleJSON
           sampleToFixed sampleBase64 DocumentInput (nat * DocumentInput)
           AuditLogInput sampleStore sampleSchema fst sampleCreateDocument
           sampleCreateAuditLog successfulRequest world0 ([], [])).
  lazy. discriminate.
Defined.

(** The sample upload with an audit store that is down: 500, and the
    document is in the store. *)
Lemma upload_is_not_atomic_witness :
  ∃ stored,
    uploadHandler sampleClock sampleUuid sampleJSON sampleToFixed sampleBase64
      DocumentInput (nat * DocumentInput) AuditLogInput sampleStore
      sampleSchema fst sampleCreateDocument failingAuditLog
      successfulRequest (world0, ([], []))
    = (Normal (mkResponse 500 (MessageBody "Erreur lors de l'importation du document")),
       (afterUploadError (Error "audit store is down")
          (afterGenerator (afterGenerator world0)),
        ([stored], []))).
Proof.
  destruct (upload_is_not_atomic sampleClock sampleUuid sampleJSON
              sampleToFixed sampleBase64 DocumentInput (nat * DocumentInput)
              AuditLogInput sampleStore sampleSchema fst sampleCreateDocument
              failingAuditLog successfulRequest sampleFile world0 ([], []) eq_refl)
    as (uid & token & _ & _ & H).
  eexists. eapply H; reflexivity.
Defined.

(** Default options and options that set generateNewUid and addToken to
    false: the same upload. *)
Lemma only_signAfterImport_is_read_witness :
  sampleUpload2 successfulRequest (world0, ([], []))
  = sampleUpload2 (mkRequest (Some sampleFile) (Some "keep")) (world0, ([], [])).
Proof.
  exact (only_signAfterImport_is_read sampleClock sampleUuid sampleJSON2
           sampleToFixed sampleBase64 DocumentInput (nat * DocumentInput)
           AuditLogInput sampleStore sampleSchema fst sampleCreateDocument
           sampleCreateAuditLog successfulRequest
           (mkRequest (Some sampleFile) (Some "keep")) sampleFile
           defaultOptions
           (JObject [("generateNewUid", JBool false); ("addToken", JBool false);
                     ("signAfterImport", JBool false)])
           (world0, ([], [])) eq_refl eq_refl eq_refl eq_refl eq_refl).
Defined.

Lemma uploaded_document_has_fresh_identifiers_witness :
  ∃ flag validated,
    sampleSchema
      (mkDocumentInput "contrat.pdf"
         (uidAt sampleClock sampleUuid 0 0) (tokenAt sampleClock sampleUuid 1 1)
         "AQ==" "application/pdf" "0.00 MB" 1 flag)
    = Normal validated.
Proof.
  destruct (sampleUpload successfulRequest (world0, ([], []))) as [[resp|e] st'] eqn:Hrun;
    [|lazy in Hrun; discriminate].
  apply (uploaded_document_has_fresh_identifiers sampleClock sampleUuid sampleJSON
           sampleToFixed sampleBase64 DocumentInput (nat * DocumentInput)
           AuditLogInput sampleStore sampleSchema fst sampleCreateDocument
           sampleCreateAuditLog successfulRequest sampleFile world0 ([], []) resp st'
           eq_refl sampleDate_valid sampleDate_valid Hrun).
  lazy in Hrun. by injection Hrun as <- <-.
Defined.

(** Signing document 7 of the toy store. *)
Lemma signature_certificate_label_witness :
  sampleSign "7" (world0, ([], []))
  = (Normal (mkReply 200 (Stored (Some "contrat.pdf"))),
     (mkWorld 0 1 [],
      ([mkSigned "contrat.pdf" true
          "digital_signature_3f2a9c1e-7b4d-4e8a-9c0f-5d6e7f8a9b0c"],
       [mkAuditRecord 7 1 "sign" "Document signed with certificate #DIGITAL_"]))).
Proof.
  exact (signature_certificate_label sampleUuid sampleParseInt sampleUpperCase
           string AuditRecord signStore sampleGetDocument sampleUpdateDocument
           sampleSignAudit "7" world0 ([], []) "contrat.pdf" ([], [])
           (Some "contrat.pdf")
           ([mkSigned "contrat.pdf" true
               "digital_signature_3f2a9c1e-7b4d-4e8a-9c0f-5d6e7f8a9b0c"], [])
           eq_refl eq_refl eq_refl).
Defined.


(** The locations "/document/42" and "/document/". *)
Lemma header_reads_the_document_id_witness :
  handleDownloadDocument "/document/42" = Some "/api/documents/42/download" ∧
  signDocument_mutationFn "/document/42" = Normal ("POST", "/api/documents/42/sign") ∧
  handleDownloadDocument "/document/" = None ∧
  signDocument_mutationFn "/document/" = Throw (Error "ID de document manquant").
Proof.
  destruct (header_reads_the_document_id "42" "" eq_refl (or_introl eq_refl))
    as (_ & _ & Hdownload & Hsign).
  destruct (header_reads_the_document_id "" "" eq_refl (or_introl eq_refl))
    as (_ & _ & Hnothing & Hthrow).
  split; [exact Hdownload|]. split; [exact Hsign|].
  split; [exact Hnothing|exact Hthrow].
Defined.

(** An id that is not a number names nothing in the toy store: 404, nothing
    drawn, nothing stored. *)
Example sign_unknown_document :
  sampleSign "abc" (world0, ([], []))
  = (Normal (mkReply 404 (Message "Document non trouvé")), (world0, ([], []))).
Proof. evaluate. Qed.

End MoreWitnesses.

(** ** The upload route behind its middleware, and what a serializer may add *)

Module RouteFacts.
Import Js Stamper Routes UploadRoute RouteVocabulary Sample MoreSamples.
Import StamperFacts RoutesFacts.

Section WithMiddleware.
Variable RawRequest : Type.
Variable single : MulterOptions → string → RawRequest → completion Request.
Variable wallClock : nat → Date.
Variable randomSource : nat → string.
Variable JSON_parse : string → completion JsValue.
Variable toFixed : float → nat → string.
Variable toBase64 : list Byte.byte → string.
Variables InsertDocument Document AuditLog Storage : Type.
Variable insertDocumentSchema_parse : DocumentInput → completion InsertDocument.
Variable id : Document → nat.
Variable createDocument : InsertDocument → Storage → completion Document * Storage.
Variable createAuditLog : AuditLogInput → Storage → completion AuditLog * Storage.

Abbreviation uploadRoute :=
  (uploadRoute RawRequest single wallClock randomSource JSON_parse toFixed toBase64
     InsertDocument Document AuditLog Storage
     insertDocumentSchema_parse id createDocument createAuditLog).

(** C10 (as amended): a request the middleware rejects never reaches the
    handler: the route sends no response of its own, changes nothing and
    leaves the error to the application's error handling. On a request the
    middleware passes on, the handler always answers; the status is 400
    exactly when no file is attached; with a file, every failing step (the
    options JSON, the read of signAfterImport, the schema, the storing of the
    document, the storing of the audit entry) gives 500 with the fixed
    message, and when all succeed the answer is 201 with the created
    document, the store being the one left by the two storage calls. *)
Theorem upload_route_responses raw st :
  match single upload "file" raw with
  | Throw err => uploadRoute raw st = (Normal (ToErrorHandler err), st)
  | Normal req =>
    ∃ resp st', uploadRoute raw st = (Normal (Responded resp), st') ∧
      (status resp = 400 ↔ file req = None) ∧
      (status resp = 400 ∨ status resp = 500 ∨ status resp = 201) ∧
      (status resp = 500 →
       body resp = MessageBody "Erreur lors de l'importation du document") ∧
      ∀ reqFile, file req = Some reqFile →
        ∃ uid token,
          generateUID wallClock randomSource st.1 = (Normal uid, afterGenerator st.1) ∧
          generateToken wallClock randomSource (afterGenerator st.1)
          = (Normal token, afterGenerator (afterGenerator st.1)) ∧
          let parsed := parsedOptions JSON_parse req in
          let document flag :=
            mkDocumentInput (originalname reqFile) uid token
              (toBase64 (buffer reqFile)) (mimetype reqFile)
              (toFixed (size reqFile / 1024 / 1024)%float 2 +:+ " MB") 1 flag in
          let entry created :=
            mkAuditLogInput (id created) 1 "create"
              ("Document uploaded: " +:+ originalname reqFile) in
          (∀ e, parsed = Throw e → status resp = 500) ∧
          ∀ opts, parsed = Normal opts →
            (∀ e, getProperty opts "signAfterImport" = Throw e → status resp = 500) ∧
            ∀ flag, getProperty opts "signAfterImport" = Normal flag →
              (∀ e, insertDocumentSchema_parse (document flag) = Throw e →
                 status resp = 500) ∧
              ∀ validated, insertDocumentSchema_parse (document flag) = Normal validated →
                (∀ e s1, createDocument validated st.2 = (Throw e, s1) →
                   status resp = 500) ∧
                ∀ created s1, createDocument validated st.2 = (Normal created, s1) →
                  (∀ e s2, createAuditLog (entry created) s1 = (Throw e, s2) →
                     status resp = 500) ∧
                  ∀ log s2, createAuditLog (entry created) s1 = (Normal log, s2) →
                    status resp = 201 ∧ body resp = DocumentBody created ∧ st'.2 = s2
  end.
Proof.
  unfold UploadRoute.uploadRoute.
  destruct (single upload "file" raw) as [req|err]; [|done].
  destruct (upload_responses wallClock randomSource JSON_parse toFixed toBase64
              InsertDocument Document AuditLog Storage insertDocumentSchema_parse
              id createDocument createAuditLog req st)
    as (resp & st' & Hrun & Hrest).
  exists resp, st'. split; [|exact Hrest].
  unfold mbind, M_bind. by rewrite Hrun.
Qed.
End WithMiddleware.

(** C10, as stated, fails on a request that multer rejects: a file of 11 MB,
    above the limit of lines 10-13, and a file sent under another field than
    "file" are failures on this route that the handler never sees, so that
    they are not answered with its 500 and its generic message; the second
    request has no file under "file" and is not answered 400 either. A small
    file under "file" reaches the handler. *)
Lemma rejected_uploads_bypass_the_handler :
  sampleRoute (Multer.mkMultipart (Some oversizedPart) None) (world0, ([], []))
  = (Normal (ToErrorHandler (Error "File too large")), (world0, ([], []))) ∧
  sampleRoute (Multer.mkMultipart (Some misnamedPart) None) (world0, ([], []))
  = (Normal (ToErrorHandler (Error "Unexpected field")), (world0, ([], []))) ∧
  (∀ error : JsError,
     @ToErrorHandler (nat * DocumentInput) error
     ≠ Responded (mkResponse 500
                    (MessageBody "Erreur lors de l'importation du document")) ∧
     @ToErrorHandler (nat * DocumentInput) error
     ≠ Responded (mkResponse 400 (MessageBody "Aucun fichier n'a été téléchargé"))) ∧
  ∃ created st',
    sampleRoute (Multer.mkMultipart (Some smallPart) None) (world0, ([], []))
    = (Normal (Responded (mkResponse 201 (DocumentBody created))), st').
Proof.
  split; [lazy; reflexivity|]. split; [lazy; reflexivity|].
  split; [by split|]. eexists _, _. lazy. reflexivity.
Qed.


End RouteFacts.
